(** * APL auction data scripts: valuation and recommendation rules

    A shallow embedding of the scoring rules of the APL dashboard scripts
    ([clean_processed_data.py], [combine_apl_data.py],
    [update_combined_data.py], [generate_auction_guide.py],
    [generate_auction_top_picks.py], [waterfall_dashboard.py]) and the
    properties of their natural-language specification.

    Numbers.  The scripts compute on Python numbers (ints and binary64
    floats).  The embedding takes them as exact rationals [Q]; integer-valued
    columns ([Tier], [Edition Count]) are [Z].  A cell that can be missing
    (pandas NaN, or a Python [None] stored in a numeric column) is a [cell]:
    [None] is the missing value, every comparison with it is false and
    arithmetic propagates it, as for NaN.  [round] is rounding half to even
    on the exact value.  Exceptions that the modelled code can raise
    (division by zero, [round] of NaN) are results [Raise]. *)

From Stdlib Require Import ZArith QArith Qround Qminmax Qabs.
From Stdlib Require Import Ascii String List Bool Lia Lqa Permutation.
Import ListNotations.

Local Open Scope Q_scope.

(* ===================================================================== *)
(** * Python values and builtins *)
(* ===================================================================== *)

(** Exceptions of the modelled code. *)
Inductive exn : Type :=
| ZeroDivisionError
| ValueError.

Inductive res (A : Type) : Type :=
| Ok (a : A)
| Raise (e : exn).

Arguments Ok {A} a.
Arguments Raise {A} e.

Definition bind {A B : Type} (c : res A) (k : A -> res B) : res B :=
  match c with
  | Ok a => k a
  | Raise e => Raise e
  end.

Notation "x <- c ;; k" := (bind c (fun x => k))
  (at level 61, c at next level, right associativity).

(** [df.apply(f, axis=1)] for a function that can raise: rows are visited in
    order and the first exception aborts the script. *)
Fixpoint mapM {A B : Type} (f : A -> res B) (l : list A) : res (list B) :=
  match l with
  | [] => Ok []
  | a :: l' => b <- f a ;; bs <- mapM f l' ;; Ok (b :: bs)
  end.

(** A numeric cell; [None] is NaN / None. *)
Definition cell : Type := option Q.

Definition Qltb (x y : Q) : bool :=
  match x ?= y with Lt => true | _ => false end.

(** Comparisons of cells: false as soon as one side is missing. *)
Definition cell_ltb (a b : cell) : bool :=
  match a, b with Some x, Some y => Qltb x y | _, _ => false end.

Definition cell_gtb (a b : cell) : bool := cell_ltb b a.

Definition cell_leb (a b : cell) : bool :=
  match a, b with Some x, Some y => Qle_bool x y | _, _ => false end.

Definition cell_eqb (a b : cell) : bool :=
  match a, b with Some x, Some y => Qeq_bool x y | _, _ => false end.

(** Arithmetic on cells: a missing operand gives a missing result. *)
Definition lift2 (f : Q -> Q -> Q) (a b : cell) : cell :=
  match a, b with Some x, Some y => Some (f x y) | _, _ => None end.

Definition cell_add : cell -> cell -> cell := lift2 Qplus.
Definition cell_sub : cell -> cell -> cell := lift2 Qminus.
Definition cell_mul : cell -> cell -> cell := lift2 Qmult.
Definition cell_abs (a : cell) : cell := option_map Qabs a.

(** [a / c] for a non-zero literal [c]: cannot raise. *)
Definition cell_div_lit (a : cell) (c : Q) : cell := option_map (fun x => x / c) a.

(** [x / y] on numbers: Python raises on a zero divisor. *)
Definition py_truediv (x y : Q) : res Q :=
  if Qeq_bool y 0 then Raise ZeroDivisionError else Ok (x / y).

(** [a / b] on cells: a zero divisor raises, otherwise NaN propagates. *)
Definition cell_truediv (a b : cell) : res cell :=
  match b with
  | Some y => if Qeq_bool y 0 then Raise ZeroDivisionError
              else Ok (option_map (fun x => x / y) a)
  | None => Ok None
  end.

(** [min(a, b)]: the first argument unless the second is strictly smaller. *)
Definition py_min (a b : Q) : Q := if Qltb b a then b else a.

(** [max(a, b)]: the first argument unless the second is strictly larger. *)
Definition py_max (a b : Q) : Q := if Qltb a b then b else a.

(** Rounding to the nearest integer, ties to the even one. *)
Definition round_half_even (x : Q) : Z :=
  let f := Qfloor x in
  match (x - inject_Z f ?= 1 # 2)%Q with
  | Lt => f
  | Gt => (f + 1)%Z
  | Eq => if Z.even f then f else (f + 1)%Z
  end.

(** [round(x, ndigits)] for [ndigits >= 1]: a number with [ndigits]
    decimals. *)
Definition py_round_n (x : Q) (ndigits : positive) : Q :=
  Qmake (round_half_even (x * inject_Z (Z.pos (10 ^ ndigits)))) (10 ^ ndigits).

(** [round(c)] on a cell: an int, and [ValueError] on NaN. *)
Definition cell_round (c : cell) : res cell :=
  match c with
  | Some x => Ok (Some (inject_Z (round_half_even x)))
  | None => Raise ValueError
  end.

(** [round(c, ndigits)] and [Series.round(ndigits)]: NaN stays NaN. *)
Definition cell_round_n (c : cell) (ndigits : positive) : cell :=
  option_map (fun x => py_round_n x ndigits) c.

(* ===================================================================== *)
(** * Data frames: aggregation, groupby, left merge *)
(* ===================================================================== *)

Definition Qsum (l : list Q) : Q := fold_left Qplus l 0.

(** The present values of a column ([mean], [min], [max] skip NaN). *)
Definition present (l : list cell) : list Q :=
  flat_map (fun c => match c with Some x => [x] | None => [] end) l.

(** Aggregations of a column of numbers; NaN on an empty one. *)
Definition agg_mean (l : list Q) : cell :=
  match l with
  | [] => None
  | _ :: _ => Some (Qsum l / inject_Z (Z.of_nat (length l)))
  end.

Definition agg_min (l : list Q) : cell :=
  match l with
  | [] => None
  | x :: l' => Some (fold_left py_min l' x)
  end.

Definition agg_max (l : list Q) : cell :=
  match l with
  | [] => None
  | x :: l' => Some (fold_left py_max l' x)
  end.

Definition eqb_of {K : Type} (eq_dec : forall x y : K, {x = y} + {x <> y})
  (x y : K) : bool := if eq_dec x y then true else false.

(** [df.groupby(key)]: one group per distinct key, holding the rows of that
    key in table order.  (pandas lists the groups by sorted key; the groups
    are only used as the right side of a left merge on the key.) *)
Definition groupby {A K : Type} (eq_dec : forall x y : K, {x = y} + {x <> y})
  (key : A -> K) (df : list A) : list (K * list A) :=
  map (fun k => (k, filter (fun a => eqb_of eq_dec (key a) k) df))
      (nodup eq_dec (map key df)).

(** [pd.merge(left, right, on=key, how='left')]: every left row, in order,
    once per matching right row, and once with missing right columns when
    nothing matches. *)
Definition merge_left {L R K O : Type}
  (eq_dec : forall x y : K, {x = y} + {x <> y})
  (lkey : L -> K) (rkey : R -> K) (join : L -> option R -> O)
  (left : list L) (right : list R) : list O :=
  flat_map
    (fun l =>
       match filter (fun r => eqb_of eq_dec (lkey l) (rkey r)) right with
       | [] => [join l None]
       | rs => map (fun r => join l (Some r)) rs
       end)
    left.

(* ===================================================================== *)
(** * clean_processed_data.py *)
(* ===================================================================== *)

Module clean_processed_data.

Record Row : Type := mkRow {
  Tier : Z;
  Price : cell
}.

(** [calculate_value(row)], lines 72-77. *)
Definition calculate_value (row : Row) : res cell :=
  if cell_eqb (Price row) (Some 0) then Ok (Some 0)
  else
    let tier_multiplier := (5 - Tier row)%Z in
    v <- cell_truediv (Some (inject_Z (tier_multiplier * 10))) (Price row) ;;
    Ok (cell_round_n v 2).

End clean_processed_data.

(* ===================================================================== *)
(** * combine_apl_data.py *)
(* ===================================================================== *)

Module combine_apl_data.

Record Row : Type := mkRow {
  Tier : Z;
  Price : cell
}.

(** [pd.isna(x)]. *)
Definition isna (c : cell) : bool :=
  match c with None => true | Some _ => false end.

(** [calculate_value_rating(row)], lines 36-40. *)
Definition calculate_value_rating (row : Row) : res cell :=
  if cell_eqb (Price row) (Some 0) || isna (Price row) then Ok (Some 0)
  else
    let tier_multiplier := (5 - Tier row)%Z in
    v <- cell_truediv (Some (inject_Z (tier_multiplier * 10))) (Price row) ;;
    Ok (cell_round_n v 2).

End combine_apl_data.

(* ===================================================================== *)
(** * waterfall_dashboard.py *)
(* ===================================================================== *)

Module waterfall_dashboard.

(** [calculate_max_bid], lines 183-196. *)
Definition calculate_max_bid (remaining_budget : Q) (players_needed : Z)
  (player_value : Q) (is_high_priority : bool) : res Q :=
  avg_per_player <-
    (if (0 <? players_needed)%Z
     then py_truediv remaining_budget (inject_Z players_needed)
     else Ok 0) ;;
  let max_bid :=
    if is_high_priority
    then avg_per_player * (1.5 + (player_value - 1) * 0.5)
    else avg_per_player * (1 + (player_value - 1) * 0.3) in
  Ok (py_min max_bid remaining_budget).

End waterfall_dashboard.

(* ===================================================================== *)
(** * update_combined_data.py *)
(* ===================================================================== *)

Module update_combined_data.

Local Open Scope string_scope.

(** A row of [apl_historical_data.csv], with the columns the script reads.
    [Tier], [Price], [Value Rating], [Edition Count] and the strings are
    present in every row; [Ranking] is missing for the older editions. *)
Record Row : Type := mkRow {
  Player_Name : string;
  Edition : string;
  Tier : Z;
  Price : Q;
  Value_Rating : Q;
  Ranking : cell;
  Edition_Count : Z
}.

(** The table after each step: the columns so far and the new ones. *)
Record RowL : Type := mkRowL {
  rowL_prev :> Row;
  In_Latest_Edition : bool
}.

Record RowH : Type := mkRowH {
  rowH_prev :> RowL;
  Historical_Avg_Price : cell;
  Historical_Min_Price : cell;
  Historical_Max_Price : cell;
  Historical_Avg_Tier : cell
}.

Record RowV : Type := mkRowV {
  rowV_prev :> RowH;
  Price_Variance_From_Avg : cell
}.

Record RowM : Type := mkRowM {
  rowM_prev :> RowV;
  Tier_Movement : cell
}.

Record RowP : Type := mkRowP {
  rowP_prev :> RowM;
  Value_Proposition : cell
}.

Record RowR : Type := mkRowR {
  rowR_prev :> RowP;
  Tier_Min_Ranking : cell
}.

Record RowT : Type := mkRowT {
  rowT_prev :> RowR;
  Is_Tier_Top : bool
}.

Record RowE : Type := mkRowE {
  rowE_prev :> RowT;
  Export_Date : string;
  Data_Version : string
}.

Record MasterRow : Type := mkMasterRow {
  master_prev :> RowE;
  Recommended_Price : cell
}.

(** Step 1 (line 25). *)
Definition step1 (row : Row) : RowL :=
  mkRowL row (Edition row =? "APL 8.0").

(** Step 2 (lines 29-53): one row per player name. *)
Record HistoryRow : Type := mkHistoryRow {
  h_Player_Name : string;
  h_Historical_Avg_Price : cell;
  h_Historical_Min_Price : cell;
  h_Historical_Max_Price : cell;
  h_Price_Data_Points : Z;
  h_Historical_Avg_Tier : cell;
  h_Historical_Min_Tier : cell;
  h_Historical_Max_Tier : cell;
  h_Edition_Count_first : option Z
}.

Definition aggregate (g : string * list RowL) : HistoryRow :=
  let prices := map (fun r : RowL => Price r) (snd g) in
  let tiers := map (fun r : RowL => inject_Z (Tier r)) (snd g) in
  {| h_Player_Name := fst g;
     h_Historical_Avg_Price := cell_round_n (agg_mean prices) 1;
     h_Historical_Min_Price := agg_min prices;
     h_Historical_Max_Price := agg_max prices;
     h_Price_Data_Points := Z.of_nat (length prices);
     h_Historical_Avg_Tier := cell_round_n (agg_mean tiers) 1;
     h_Historical_Min_Tier := agg_min tiers;
     h_Historical_Max_Tier := agg_max tiers;
     h_Edition_Count_first :=
       hd_error (map (fun r : RowL => Edition_Count r) (snd g)) |}.

Definition player_price_history (updated_df : list RowL) : list HistoryRow :=
  map aggregate
      (groupby string_dec (fun r : RowL => Player_Name r) updated_df).

(** A column of the right table in a merged row: missing without a match. *)
Definition column {R : Type} (f : R -> cell) (o : option R) : cell :=
  match o with Some r => f r | None => None end.

(** Step 3 (lines 56-62). *)
Definition join_history (row : RowL) (h : option HistoryRow) : RowH :=
  {| rowH_prev := row;
     Historical_Avg_Price := column h_Historical_Avg_Price h;
     Historical_Min_Price := column h_Historical_Min_Price h;
     Historical_Max_Price := column h_Historical_Max_Price h;
     Historical_Avg_Tier := column h_Historical_Avg_Tier h |}.

(** Step 4 (lines 65-68). *)
Definition price_variance_from_avg (row : RowH) : cell :=
  if (1 <? Edition_Count row)%Z
  then cell_sub (Some (Price row)) (Historical_Avg_Price row)
  else Some 0.

(** Step 5 (lines 71-80). *)
Definition calculate_tier_movement (row : RowV) : cell :=
  if (Edition_Count row <=? 1)%Z then Some 0
  else if Edition row =? "APL 8.0" then
    let prev_tier := Historical_Avg_Tier row in
    let current_tier := Some (inject_Z (Tier row)) in
    cell_sub current_tier prev_tier
  else Some 0.

(** Step 6 (lines 86-110). *)
Definition calculate_value_proposition (row : RowM) : cell :=
  if negb (Edition row =? "APL 8.0") then None
  else
    let base_score := Value_Rating row in
    let tier_factor :=
      if cell_ltb (Tier_Movement row) (Some 0) then 1.2
      else if cell_gtb (Tier_Movement row) (Some 0) then 0.8
      else 1.0 in
    let price_factor :=
      if (1 <? Edition_Count row)%Z then
        if cell_ltb (Price_Variance_From_Avg row) (Some 0) then 1.2
        else if cell_gtb (Price_Variance_From_Avg row) (Some 0) then 0.8
        else 1.0
      else 1.0 in
    let value_prop := base_score * tier_factor * price_factor in
    Some (py_round_n value_prop 2).

(** Step 7 (lines 115-121). *)
Record TierRankingRow : Type := mkTierRankingRow {
  t_Tier : Z;
  t_Tier_Min_Ranking : cell
}.

Definition tier_rankings (updated_df : list RowP) : list TierRankingRow :=
  map (fun g : Z * list RowP =>
         mkTierRankingRow (fst g)
           (agg_min (present (map (fun r : RowP => Ranking r) (snd g)))))
      (groupby Z.eq_dec (fun r : RowP => Tier r)
         (filter (fun r : RowP => Edition r =? "APL 8.0") updated_df)).

Definition join_tier_rankings (row : RowP) (t : option TierRankingRow) : RowR :=
  mkRowR row (column t_Tier_Min_Ranking t).

Definition is_tier_top (row : RowR) : bool :=
  if Edition row =? "APL 8.0"
  then cell_leb (Ranking row) (cell_add (Tier_Min_Ranking row) (Some 2))
  else false.

(** Step 9 (lines 128-153). *)
Definition recommend_price (row : RowE) : res cell :=
  if negb (Edition row =? "APL 8.0") then Ok None
  else
    let base_price := Price row in
    if (1 <? Edition_Count row)%Z then
      let historical_weight :=
        py_min 0.3 (0.1 * inject_Z (Edition_Count row)) in
      let current_weight := 1 - historical_weight in
      let blended_price :=
        cell_add (Some (current_weight * base_price))
                 (cell_mul (Some historical_weight) (Historical_Avg_Price row)) in
      let blended_price :=
        if cell_ltb (Tier_Movement row) (Some 0) then
          let tier_bonus := cell_mul (cell_abs (Tier_Movement row)) (Some 5) in
          cell_mul blended_price (cell_add (Some 1) (cell_div_lit tier_bonus 100))
        else if cell_gtb (Tier_Movement row) (Some 0) then
          let tier_penalty := cell_mul (Tier_Movement row) (Some 5) in
          cell_mul blended_price (cell_sub (Some 1) (cell_div_lit tier_penalty 100))
        else blended_price in
      cell_round blended_price
    else Ok (Some base_price).

(** Steps 1 to 7 (lines 22-121). *)
Definition steps_1_to_7 (combined_df : list Row) : list RowT :=
  let updated_df := map step1 combined_df in
  let history := player_price_history updated_df in
  let updated_df :=
    merge_left string_dec (fun r : RowL => Player_Name r) h_Player_Name
               join_history updated_df history in
  let updated_df :=
    map (fun row => mkRowV row (price_variance_from_avg row)) updated_df in
  let updated_df :=
    map (fun row => mkRowM row (calculate_tier_movement row)) updated_df in
  let updated_df :=
    map (fun row => mkRowP row (calculate_value_proposition row)) updated_df in
  let rankings := tier_rankings updated_df in
  let updated_df :=
    merge_left Z.eq_dec (fun r : RowP => Tier r) t_Tier
               join_tier_rankings updated_df rankings in
  map (fun row => mkRowT row (is_tier_top row)) updated_df.

(** Step 8 (lines 124-125); [today] is the date of the run. *)
Definition step8 (today : string) (row : RowT) : RowE :=
  mkRowE row today "1.0".

(** Step 9 on one row (line 155). *)
Definition step9 (row : RowE) : res MasterRow :=
  p <- recommend_price row ;; Ok (mkMasterRow row p).

(** The script (lines 22-155). *)
Definition update_combined_data (today : string) (combined_df : list Row)
  : res (list MasterRow) :=
  mapM step9 (map (step8 today) (steps_1_to_7 combined_df)).



(** The base columns of a row of [apl_master_data.csv]. *)
Definition base (row : MasterRow) : Row := row.


End update_combined_data.

(* ===================================================================== *)
(** * generate_auction_guide.py *)
(* ===================================================================== *)

Module generate_auction_guide.

Local Open Scope string_scope.

(** A row of [auction_guide] (the APL 8.0 rows of [apl_master_data.csv]),
    with the columns the priority rule reads. *)
Record Row : Type := mkRow {
  Is_Tier_Top : bool;
  Value_Proposition : cell
}.

(** The [Auction_Priority] rule (lines 26-30). *)
Definition Auction_Priority (row : Row) : string :=
  if Is_Tier_Top row || cell_gtb (Value_Proposition row) (Some 1.5) then "High"
  else if cell_gtb (Value_Proposition row) (Some 1.0) then "Medium"
  else "Low".

End generate_auction_guide.

(* ===================================================================== *)
(** * generate_auction_top_picks.py *)
(* ===================================================================== *)

Module generate_auction_top_picks.

(** A row of [apl8_auction_guide.csv], with the columns the score reads. *)
Record Row : Type := mkRow {
  Value_Score : cell;
  Tier : Z;
  APL_Editions : Z;
  Top_In_Tier : bool
}.


End generate_auction_top_picks.

(* ===================================================================== *)
(** * Vocabulary of the specification *)
(* ===================================================================== *)

(** [c > q] for a cell: the cell is present and exceeds [q]. *)
Definition cell_gt (c : cell) (q : Q) : Prop := exists v, c = Some v /\ q < v.




(** Tier and price factors of the value proposition. *)
Definition spec_tier_factor (tierMovement : cell) : Q :=
  if cell_ltb tierMovement (Some 0) then 1.2
  else if cell_gtb tierMovement (Some 0) then 0.8
  else 1.0.

Definition spec_price_factor (currentPrice : Q) (historicalAvgPrice : cell)
  (editionCount : Z) : Q :=
  if (1 <? editionCount)%Z then
    if cell_ltb (Some currentPrice) historicalAvgPrice then 1.2
    else if cell_gtb (Some currentPrice) historicalAvgPrice then 0.8
    else 1.0
  else 1.0.

(** Multiplier of the maximum affordable bid. *)
Definition spec_bid_multiplier (playerValueScore : Q) (isHighPriority : bool) : Q :=
  if isHighPriority then 1.5 + (playerValueScore - 1) * 0.5
  else 1 + (playerValueScore - 1) * 0.3.

Definition spec_avg_per_player (remainingBudget : Q) (playersNeeded : Z) : Q :=
  if (0 <? playersNeeded)%Z then remainingBudget / inject_Z playersNeeded else 0.


(** Value rating as the specification defines it on a present price. *)
Definition spec_value_rating (tier : Z) (price : Q) : Q :=
  if Qltb 0 price then py_round_n (inject_Z ((5 - tier) * 10) / price) 2 else 0.

Section CodeFragments.

Import update_combined_data.

(** The price factor of step 6, read off the variance column as the code
    does. *)
Definition price_factor_of_variance (row : RowM) : Q :=
  if (1 <? Edition_Count row)%Z then
    if cell_ltb (Price_Variance_From_Avg row) (Some 0) then 1.2
    else if cell_gtb (Price_Variance_From_Avg row) (Some 0) then 0.8
    else 1.0
  else 1.0.

(** The price of step 9 on a row where it does not raise. *)
Definition recommended_price_of (row : RowE) : cell :=
  match recommend_price row with
  | Ok p => p
  | Raise _ => None
  end.

(** Steps 8 and 9 on a row where step 9 does not raise. *)
Definition finish (today : string) (row : RowT) : MasterRow :=
  mkMasterRow (step8 today row) (recommended_price_of (step8 today row)).

(** The history row merged into a row of the table at step 3. *)
Definition history_of (df : list RowL) (row : RowL) : option HistoryRow :=
  find (fun h => eqb_of string_dec (Player_Name row) (h_Player_Name h))
       (player_price_history df).

(** The minimum-ranking row merged into a row of the table at step 7. *)
Definition rankings_of (df : list RowP) (row : RowP) : option TierRankingRow :=
  find (fun t => eqb_of Z.eq_dec (Tier row) (t_Tier t)) (tier_rankings df).

(** Steps 1 to 6 on one row of the table [combined_df]. *)
Definition steps_1_to_6_row (combined_df : list Row) (r : Row) : RowP :=
  let row := join_history (step1 r) (history_of (map step1 combined_df) (step1 r)) in
  let row := mkRowV row (price_variance_from_avg row) in
  let row := mkRowM row (calculate_tier_movement row) in
  mkRowP row (calculate_value_proposition row).

(** Step 7 on one row of the table [df] of step 6. *)
Definition step7_row (df : list RowP) (row : RowP) : RowT :=
  let row := join_tier_rankings row (rankings_of df row) in
  mkRowT row (is_tier_top row).

End CodeFragments.

Section TierTopVocabulary.

Import update_combined_data.
Local Open Scope string_scope.

(** The APL 8.0 rows of a tier. *)
Definition latest_of_tier (tier : Z) (df : list Row) : list Row :=
  filter (fun r : Row => (Edition r =? "APL 8.0") && (Tier r =? tier)%Z) df.

(** The best ranking among the APL 8.0 rows of a tier, as step 7 computes
    it. *)
Definition min_ranking_of_tier (tier : Z) (df : list Row) : cell :=
  agg_min (present (map Ranking (latest_of_tier tier df))).

(** The APL 8.0 rows of the tier of [r] that are ranked strictly better. *)
Definition ranked_above (df : list Row) (r : Row) : list Row :=
  filter (fun r' : Row => cell_ltb (Ranking r') (Ranking r))
         (latest_of_tier (Tier r) df).

(** "Among the top 3 by ranking within their tier for the current edition",
    in the specification's words: an APL 8.0 row with a ranking, with fewer
    than three APL 8.0 rows of its tier ranked better. *)
Definition spec_is_tier_top (df : list Row) (r : Row) : bool :=
  (Edition r =? "APL 8.0")
  && match Ranking r with Some _ => true | None => false end
  && (length (ranked_above df r) <? 3)%nat.

End TierTopVocabulary.

(* ===================================================================== *)
(** * Sample rows and tables *)
(* ===================================================================== *)

Module samples.

Import update_combined_data.
Local Open Scope string_scope.

(** A returning player's APL 7.0 row: two editions, tier 2 now, tier 1.5 on
    average, as it stands before step 5. *)
Definition older_edition_row : RowV :=
  mkRowV
    (mkRowH (step1 (mkRow "Player A" "APL 7.0" 2 20 1.5 None 2))
            (Some 22.5) (Some 20) (Some 25) (Some 1.5))
    (Some (-2.5)).

(** The same player's APL 8.0 row. *)
Definition latest_edition_row : RowV :=
  mkRowV
    (mkRowH (step1 (mkRow "Player A" "APL 8.0" 1 25 1.6 (Some 3) 2))
            (Some 22.5) (Some 20) (Some 25) (Some 1.5))
    (Some 2.5).

(** A new player's APL 8.0 row. *)
Definition new_player_row : RowV :=
  mkRowV
    (mkRowH (step1 (mkRow "Player B" "APL 8.0" 3 10 2 (Some 40) 1))
            (Some 10) (Some 10) (Some 10) (Some 3))
    (Some 0).

(** The specification's example for the value proposition: value rating 1.0,
    tier movement -1, price variance -5, two editions. *)
Definition value_proposition_example : RowM :=
  mkRowM
    (mkRowV
       (mkRowH (step1 (mkRow "Player C" "APL 8.0" 2 30 1.0 (Some 12) 2))
               (Some 35) (Some 30) (Some 40) (Some 3))
       (Some (-5)))
    (Some (-1)).




(** A table of two APL 8.0 players of tier 1 whose rankings are 1 and 4. *)
Definition ranking_gap_table : list Row :=
  [ mkRow "Player E" "APL 8.0" 1 50 0.8 (Some 1) 1;
    mkRow "Player F" "APL 8.0" 1 40 1 (Some 4) 1 ].

End samples.

Section PlayerRows.

Import update_combined_data.

(** The rows of a player in a table: the group of [groupby('Player Name')]. *)
Definition rows_of_player (name : string) (df : list Row) : list Row :=
  filter (fun r : Row => eqb_of string_dec (Player_Name r) name) df.

(** The master row the script builds from a row [r] of [combined_df]. *)
Definition master_row (today : string) (combined_df : list Row) (r : Row)
  : MasterRow :=
  finish today
    (step7_row (map (steps_1_to_6_row combined_df) combined_df)
               (steps_1_to_6_row combined_df r)).

End PlayerRows.

Module more_samples.

Import update_combined_data.
Local Open Scope string_scope.


End more_samples.

(* ===================================================================== *)
(** * generate_auction_guide.py: the guide rows and the bidding strategy *)
(* ===================================================================== *)

Module auction_guide_rows.

Local Open Scope string_scope.

(** A row of [auction_guide] with the columns [bidding_strategy] and the
    priority rule read (lines 18-23). *)
Record Row : Type := mkRow {
  Recommended_Price : cell;
  Edition_Count : Z;
  Tier_Movement : cell;
  Price_Variance_From_Avg : cell;
  Value_Proposition : cell;
  Is_Tier_Top : bool
}.

(** The columns of a row that the [Auction_Priority] rule reads. *)
Definition priority_columns (row : Row) : generate_auction_guide.Row :=
  generate_auction_guide.mkRow (Is_Tier_Top row) (Value_Proposition row).

(** [min_bid] and [max_bid] of [bidding_strategy] (lines 36-37). *)
Definition min_bid (rec_price : Q) : Z :=
  Z.max 5 (round_half_even (rec_price * 0.8)).

Definition max_bid (rec_price : Q) : Z :=
  round_half_even (rec_price * 1.2).

(** The list [notes] of [bidding_strategy] (lines 42-64). *)
Definition notes (row : Row) : list string :=
  (if (1 <? Edition_Count row)%Z then
     (if cell_ltb (Tier_Movement row) (Some 0) then ["Improved tier"]
      else if cell_gtb (Tier_Movement row) (Some 0) then ["Declined tier"]
      else [])
     ++ (if cell_ltb (Price_Variance_From_Avg row) (Some (-10))
         then ["Significantly cheaper than history"]
         else if cell_gtb (Price_Variance_From_Avg row) (Some 10)
         then ["Significantly more expensive than history"]
         else [])
   else [])
  ++ (if cell_gtb (Value_Proposition row) (Some 1.5) then ["Excellent value"]
      else if cell_ltb (Value_Proposition row) (Some 0.5) then ["Poor value"]
      else [])
  ++ (if Is_Tier_Top row then ["Top in tier"] else []).

Section Formatting.

(** How Python prints a float and an int inside an f-string. *)
Variable format_float : Q -> string.
Variable format_int : Z -> string.


End Formatting.

End auction_guide_rows.

Section GuideFromMaster.

Import update_combined_data.
Local Open Scope string_scope.



End GuideFromMaster.

(* ===================================================================== *)
(** * clean_processed_data.py: the other cleaning steps *)
(* ===================================================================== *)

Module clean_steps.

Import clean_processed_data.
Local Open Scope string_scope.

(** [gender_mapping] (lines 17-21), a dict as its list of items. *)
Definition gender_mapping : list (string * string) :=
  [ ("Man", "Man"); ("Non-Cis Man", "Non-Cis"); ("Non-Cis", "Non-Cis") ].

(** [d.get(k)]. *)
Fixpoint dict_get {V : Type} (d : list (string * V)) (k : string) : option V :=
  match d with
  | [] => None
  | (k', v) :: d' => if k' =? k then Some v else dict_get d' k
  end.

(** Line 22 on one cell: [.map(gender_mapping).fillna('Unknown')]; a value
    that is no key of the dict, or a missing one, maps to NaN first. *)
Definition standardize_gender (gender : option string) : string :=
  match match gender with
        | Some g => dict_get gender_mapping g
        | None => None
        end with
  | Some v => v
  | None => "Unknown"
  end.

(** [str.isspace] of a character, for code points below 256. *)
Definition is_space (c : Ascii.ascii) : bool :=
  let n := Ascii.nat_of_ascii c in
  ((9 <=? n) && (n <=? 13) || (28 <=? n) && (n <=? 32)
   || (n =? 133) || (n =? 160))%nat.

Fixpoint lstrip (s : string) : string :=
  match s with
  | String c s' => if is_space c then lstrip s' else s
  | EmptyString => EmptyString
  end.

Fixpoint rev_string (s acc : string) : string :=
  match s with
  | String c s' => rev_string s' (String c acc)
  | EmptyString => acc
  end.

(** [s.strip()]. *)
Definition strip (s : string) : string :=
  rev_string (lstrip (rev_string (lstrip s) EmptyString)) EmptyString.

(** [s.split(',')]: never an empty list. *)
Fixpoint split_comma (s : string) : list string :=
  match s with
  | EmptyString => [EmptyString]
  | String c s' =>
      if Ascii.eqb c ","%char then EmptyString :: split_comma s'
      else match split_comma s' with
           | p :: ps => String c p :: ps
           | [] => [String c EmptyString]
           end
  end.

(** [sorted(l, key=key)]: a stable sort by insertion. *)
Fixpoint insert_by_key {A : Type} (key : A -> nat) (x : A) (l : list A) : list A :=
  match l with
  | [] => [x]
  | y :: l' => if (key x <=? key y)%nat then x :: y :: l'
               else y :: insert_by_key key x l'
  end.

Definition sorted_by_key {A : Type} (key : A -> nat) (l : list A) : list A :=
  fold_right (insert_by_key key) [] l.

(** The dict [priority] of [get_primary_position] (line 37). *)
Definition priority : list (string * nat) :=
  [ ("Goalkeeper", 1%nat); ("Defender", 2%nat); ("Midfielder", 3%nat);
    ("Attacker", 4%nat) ].

(** [priority.get(p, 5)]. *)
Definition priority_of (p : string) : nat :=
  match dict_get priority p with Some n => n | None => 5%nat end.

(** [get_primary_position(pos_str)] (lines 31-43). *)
Definition get_primary_position (pos_str : string) : string :=
  if pos_str =? "Unknown" then "Unknown"
  else
    let positions := map strip (split_comma pos_str) in
    let sorted_positions := sorted_by_key priority_of positions in
    match sorted_positions with
    | p :: _ => p
    | [] => "Unknown"
    end.

(** [get_price_category(price)] (lines 55-65). *)
Definition get_price_category (price : cell) : string :=
  if cell_eqb price (Some 0) then "N/A"
  else if cell_ltb price (Some 10) then "Low"
  else if cell_ltb price (Some 30) then "Medium"
  else if cell_ltb price (Some 60) then "High"
  else "Premium".

(** The table after step 5 (line 67) and after step 6 (line 79). *)
Record RowC : Type := mkRowC {
  rowC_prev :> Row;
  Price_Category : string
}.

Record RowV : Type := mkRowV {
  rowV_prev :> RowC;
  Value_Rating : cell
}.

(** A row after step 8 (line 85): the price is now an int. *)
Record CleanRow : Type := mkCleanRow {
  c_Tier : Z;
  c_Price : Z;
  c_Price_Category : string;
  c_Value_Rating : cell
}.

(** [.round().astype(int)] on one cell: a missing price cannot be cast. *)
Definition round_to_int (price : cell) : res Z :=
  match price with
  | Some p => Ok (round_half_even p)
  | None => Raise ValueError
  end.

(** Steps 5, 6 and 8 (lines 67, 79, 85), on the columns they touch. *)
Definition steps_5_6_8 (df_clean : list Row) : res (list CleanRow) :=
  let df_clean :=
    map (fun row : Row => mkRowC row (get_price_category (Price row))) df_clean in
  df_clean <-
    mapM (fun row : RowC => v <- calculate_value row ;; Ok (mkRowV row v))
         df_clean ;;
  mapM (fun row : RowV =>
          p <- round_to_int (Price row) ;;
          Ok (mkCleanRow (Tier row) p (Price_Category row) (Value_Rating row)))
       df_clean.

End clean_steps.

Section CleanedRow.

Import clean_processed_data.
Import clean_steps.

(** The row that steps 5, 6 and 8 store for a row of the table. *)
Definition cleaned_row (row : Row) : CleanRow :=
  mkCleanRow (Tier row)
    (match Price row with Some p => round_half_even p | None => 0%Z end)
    (get_price_category (Price row))
    (match calculate_value row with Ok v => v | Raise _ => None end).

End CleanedRow.

(* ===================================================================== *)
(** * combine_apl_data.py: ids, edition counts, position consistency *)
(* ===================================================================== *)

Module combine_steps.

Local Open Scope string_scope.

(** A row of [apl67_df] or [apl8_df], with the columns steps 5 to 9 touch;
    a position can be missing. *)
Record InRow : Type := mkInRow {
  in_Player_ID : Z;
  in_Player_Name : string;
  in_Position : option string;
  in_Primary_Position : option string;
  in_Edition : string
}.

(** A row of [combined_df] after step 7; the id is missing when the shift of
    step 5 had no maximum to add. *)
Record Row : Type := mkRow {
  Player_ID : option Z;
  Player_Name : string;
  Position : option string;
  Primary_Position : option string;
  Edition : string
}.

(** [Series.max()]: missing on an empty column. *)
Definition max_id (ids : list Z) : option Z :=
  match ids with
  | [] => None
  | x :: l => Some (fold_left Z.max l x)
  end.

(** Steps 5 and 7 (lines 49-51, 67): the APL 8 ids are shifted by the
    largest APL 6/7 id, then the two tables are concatenated. *)
Definition concat_with_shifted_ids (apl67_df apl8_df : list InRow) : list Row :=
  let max_id_apl67 := max_id (map in_Player_ID apl67_df) in
  map (fun r => mkRow (Some (in_Player_ID r)) (in_Player_Name r)
                      (in_Position r) (in_Primary_Position r) (in_Edition r))
      apl67_df
  ++ map (fun r => mkRow (option_map (Z.add (in_Player_ID r)) max_id_apl67)
                         (in_Player_Name r) (in_Position r)
                         (in_Primary_Position r) (in_Edition r))
         apl8_df.

(** The table after step 8 (lines 72-77). *)
Record RowE : Type := mkRowE {
  rowE_prev :> Row;
  In_Latest_Edition : bool;
  Edition_Count : option Z
}.

(** [groupby('Player Name')['Edition'].nunique()]: one row per player. *)
Record CountRow : Type := mkCountRow {
  c_Player_Name : string;
  c_Edition_Count : Z
}.

Definition edition_count (combined_df : list Row) : list CountRow :=
  map (fun g : string * list Row =>
         mkCountRow (fst g)
           (Z.of_nat (length (nodup string_dec (map Edition (snd g))))))
      (groupby string_dec Player_Name combined_df).

Definition join_edition_count (row : Row) (c : option CountRow) : RowE :=
  mkRowE row (Edition row =? "APL 8.0") (option_map c_Edition_Count c).

Definition step8 (combined_df : list Row) : list RowE :=
  merge_left string_dec Player_Name c_Player_Name join_edition_count
             combined_df (edition_count combined_df).

(** [Series.unique()]: the distinct values in order of first appearance. *)
Fixpoint unique_from (seen l : list string) : list string :=
  match l with
  | [] => []
  | x :: l' =>
      if existsb (String.eqb x) seen then unique_from seen l'
      else x :: unique_from (x :: seen) l'
  end.

Definition unique (l : list string) : list string := unique_from [] l.

(** [x > 1] on a count that can be missing. *)
Definition count_gt_1 (c : option Z) : bool :=
  match c with Some n => (1 <? n)%Z | None => false end.

(** [s == 'Unknown'] on a position that can be missing. *)
Definition is_unknown (p : option string) : bool :=
  match p with Some s => s =? "Unknown" | None => false end.

Definition recurring_players (combined_df : list RowE) : list string :=
  unique (map (fun r : RowE => Player_Name r)
              (filter (fun r : RowE => count_gt_1 (Edition_Count r)) combined_df)).

(** The rows that one turn of the loop of step 9 rewrites (lines 94-96). *)
Definition is_older_unknown (player : string) (r : RowE) : bool :=
  (Player_Name r =? player) && negb (Edition r =? "APL 8.0")
  && is_unknown (Position r).

Definition set_positions (position primary_position : option string)
  (r : RowE) : RowE :=
  mkRowE (mkRow (Player_ID r) (Player_Name r) position primary_position
                (Edition r))
         (In_Latest_Edition r) (Edition_Count r).

(** One turn of the loop of step 9 (lines 83-100). *)
Definition update_player (combined_df : list RowE) (player : string) : list RowE :=
  let recent_data :=
    filter (fun r : RowE => (Player_Name r =? player) && (Edition r =? "APL 8.0"))
           combined_df in
  match recent_data with
  | [] => combined_df
  | recent :: _ =>
      match Position recent with
      | None => combined_df
      | Some position =>
          let primary_position := Primary_Position recent in
          map (fun r : RowE =>
                 if is_older_unknown player r
                 then set_positions (Some position) primary_position r
                 else r)
              combined_df
      end
  end.

(** Step 9 (lines 81-100). *)
Definition step9 (combined_df : list RowE) : list RowE :=
  fold_left update_player (recurring_players combined_df) combined_df.

End combine_steps.

Section CombineVocabulary.

Import combine_steps.
Local Open Scope string_scope.

(** What step 9 may do to a row: every column but the two position columns
    stays, and the row stays as a whole unless it is a row of an older
    edition whose position is 'Unknown'. *)
Definition only_fills_unknown_position (r r' : RowE) : Prop :=
  Player_ID r' = Player_ID r
  /\ Player_Name r' = Player_Name r
  /\ Edition r' = Edition r
  /\ In_Latest_Edition r' = In_Latest_Edition r
  /\ Edition_Count r' = Edition_Count r
  /\ (Edition r = "APL 8.0" -> r' = r)
  /\ (Position r <> Some "Unknown" -> r' = r).

(** The editions in which a player has rows. *)
Definition editions_of_player (name : string) (df : list Row) : list string :=
  nodup string_dec
    (map Edition (filter (fun r => eqb_of string_dec (Player_Name r) name) df)).

End CombineVocabulary.

Section Step9Vocabulary.

Import combine_steps.
Local Open Scope string_scope.

(** The rows of [player] have not been rewritten yet. *)
Definition untouched_for (player : string) (r r' : RowE) : Prop :=
  only_fills_unknown_position r r' /\ (Player_Name r = player -> r' = r).

(** The rows of [player] have been rewritten with [position] and
    [primary_position]. *)
Definition filled_for (player position : string)
  (primary_position : option string) (r r' : RowE) : Prop :=
  only_fills_unknown_position r r'
  /\ (Player_Name r = player ->
      r' = if is_older_unknown player r
           then set_positions (Some position) primary_position r
           else r).

(** The test of [recent_data] for a player (line 85). *)
Definition is_recent_of (player : string) (r : RowE) : bool :=
  (Player_Name r =? player) && (Edition r =? "APL 8.0").

(** A small combined table: a player of two editions whose APL 7.0 position
    is 'Unknown', and a player of one edition. *)
Definition two_edition_table : list RowE :=
  [ mkRowE (mkRow (Some 1%Z) "Player A" (Some "Unknown") (Some "Unknown") "APL 7.0")
           false (Some 2%Z);
    mkRowE (mkRow (Some 2%Z) "Player B" (Some "Unknown") (Some "Unknown") "APL 7.0")
           false (Some 1%Z);
    mkRowE (mkRow (Some 3%Z) "Player A" (Some "Defender") (Some "Defender") "APL 8.0")
           true (Some 2%Z) ].

End Step9Vocabulary.

(* ===================================================================== *)
(** * process_apl_data.py: cleaning the positions field *)
(* ===================================================================== *)

Module process_apl_data.

(** [s.replace(c, '')] for a one-character [c]: every occurrence goes. *)
Fixpoint remove_char (c : ascii) (s : string) : string :=
  match s with
  | EmptyString => EmptyString
  | String a s' =>
      if Ascii.eqb a c then remove_char c s' else String a (remove_char c s')
  end.

(** [clean_positions(pos)] (lines 11-17); a value that is no string (a
    missing cell) is returned as it is. *)
Definition clean_positions (pos : option string) : option string :=
  match pos with
  | Some pos =>
      let pos := remove_char "'" (remove_char "]" (remove_char "[" pos)) in
      Some pos
  | None => None
  end.

(** The characters that [clean_positions] deletes. *)
Definition is_bracket_or_quote (a : ascii) : bool :=
  Ascii.eqb a "[" || Ascii.eqb a "]" || Ascii.eqb a "'".

End process_apl_data.

(* ===================================================================== *)
(** * waterfall_dashboard.py: value class and bid slider *)
(* ===================================================================== *)

Module dashboard_bidding.

Local Open Scope string_scope.

(** [a >= b] on cells. *)
Definition cell_geb (a b : cell) : bool := cell_leb b a.

(** [get_value_class(value_score)] (lines 172-180). *)
Definition get_value_class (value_score : cell) : string :=
  if cell_geb value_score (Some 2.0) then "excellent-value"
  else if cell_geb value_score (Some 1.5) then "good-value"
  else if cell_geb value_score (Some 1.0) then "fair-value"
  else "poor-value".

(** [x or d] for an optional number [x] and a number [d]: [None] and 0 are
    false. *)
Definition or_default (x : option Q) (d : Q) : Q :=
  match x with
  | Some q => if Qeq_bool q 0 then d else q
  | None => d
  end.

(** [x or y] for two optional numbers. *)
Definition or_else (x y : option Q) : option Q :=
  match x with
  | Some q => if Qeq_bool q 0 then y else x
  | None => y
  end.

(** The arguments of the bid slider of [show_bid_modal] (lines 2305-2320):
    its minimum, its maximum and its initial value. *)
Definition bid_slider (recommended_price max_bid current_budget : option Q)
  : Q * Q * Q :=
  let min_bid := 0.5 in
  let max_possible_bid := py_min 100.0 (or_default current_budget 100.0) in
  let initial_bid := or_default (or_else recommended_price max_bid) min_bid in
  let initial_bid :=
    if Qltb max_possible_bid initial_bid then max_possible_bid
    else initial_bid in
  (min_bid, max_possible_bid, initial_bid).

End dashboard_bidding.

(* ===================================================================== *)
(** * waterfall_dashboard.py: the team and the budget of a session *)
(* ===================================================================== *)

Module team_session.

Local Open Scope string_scope.

(** Line 133. *)
Definition TOTAL_BUDGET : Q := 150.

(** An entry of [st.session_state.team_players], as the Player Search tab
    appends it (lines 1324-1333, 1420-1429). *)
Record TeamPlayer : Type := mkTeamPlayer {
  Player : string;
  Tier : Z;
  Price : Q;
  Gender : string;
  Position : string;
  Value_Score : Q;
  Bid : option Q;
  Final_Price : Q
}.

(** The columns of a row of [auction_guide] that the handlers read; each can
    be missing. *)
Record GuidePlayer : Type := mkGuidePlayer {
  g_Player : string;
  g_Price : cell;
  g_Tier : option Z;
  g_Gender : option string;
  g_Primary_Position : option string;
  g_Value_Score : cell
}.

(** The part of [st.session_state] that the handlers read and write. *)
Record State : Type := mkState {
  team_players : list TeamPlayer;
  remaining_budget : Q;
  sold_players : list string;
  bid_history : list (string * (Q * Q))
}.

(** [init_session_state] on a fresh session (lines 224-259). *)
Definition init_session_state : State := mkState [] TOTAL_BUDGET [] [].

(** [x if pd.notna(x) else d]. *)
Definition notna_or {A : Type} (x : option A) (d : A) : A :=
  match x with Some a => a | None => d end.

Definition name_in (name : string) (l : list string) : bool :=
  existsb (String.eqb name) l.

(** [player_bought] and [player_sold] (lines 1185-1186). *)
Definition player_bought (s : State) (name : string) : bool :=
  name_in name (map Player (team_players s)).

Definition player_sold (s : State) (name : string) : bool :=
  name_in name (sold_players s).

(** [d[k] = v] on a dict kept as its list of items. *)
Definition dict_set {V : Type} (d : list (string * V)) (k : string) (v : V)
  : list (string * V) :=
  if name_in k (map fst d)
  then map (fun kv => if fst kv =? k then (k, v) else kv) d
  else d ++ [(k, v)].

(** The "Add to Team" button of the Player Search tab (lines 1310-1339). *)
Definition add_to_team (s : State) (player : GuidePlayer) : State :=
  if negb (player_sold s (g_Player player))
     && negb (player_bought s (g_Player player)) then
    let player_price := notna_or (g_Price player) 0 in
    let player_tier := notna_or (g_Tier player) 4%Z in
    let player_gender := notna_or (g_Gender player) "Not specified" in
    let player_position := notna_or (g_Primary_Position player) "Not specified" in
    let player_value := notna_or (g_Value_Score player) 1.0 in
    if Qle_bool player_price (remaining_budget s) then
      mkState
        (team_players s
         ++ [mkTeamPlayer (g_Player player) player_tier player_price
               player_gender player_position player_value None player_price])
        (remaining_budget s - player_price)
        (sold_players s) (bid_history s)
    else s
  else s.

(** The "Confirm Bid" button of the Player Search tab (lines 1408-1439). *)
Definition confirm_bid (s : State) (player : GuidePlayer)
  (bid_amount final_price : Q) : State :=
  if negb (player_sold s (g_Player player))
     && negb (player_bought s (g_Player player)) then
    let player_price := notna_or (g_Price player) 0 in
    let player_tier := notna_or (g_Tier player) 4%Z in
    let player_gender := notna_or (g_Gender player) "Not specified" in
    let player_position := notna_or (g_Primary_Position player) "Not specified" in
    let player_value := notna_or (g_Value_Score player) 1.0 in
    if Qle_bool final_price (remaining_budget s) then
      mkState
        (team_players s
         ++ [mkTeamPlayer (g_Player player) player_tier player_price
               player_gender player_position player_value (Some bid_amount)
               final_price])
        (remaining_budget s - final_price)
        (sold_players s)
        (dict_set (bid_history s) (g_Player player) (bid_amount, final_price))
    else s
  else s.

(** [team_player['Final_Price'] or team_player['Price']] (line 1348). *)
Definition refund (p : TeamPlayer) : Q :=
  if Qeq_bool (Final_Price p) 0 then Price p else Final_Price p.

(** The loop of the "Remove" button (lines 1346-1352): the first entry of
    that name is refunded and popped. *)
Fixpoint remove_first (name : string) (team : list TeamPlayer)
  : option (Q * list TeamPlayer) :=
  match team with
  | [] => None
  | p :: team' =>
      if Player p =? name then Some (refund p, team')
      else match remove_first name team' with
           | Some (r, rest) => Some (r, p :: rest)
           | None => None
           end
  end.

(** The "Remove" button of the Player Search tab (lines 1341-1352). *)
Definition remove_from_team (s : State) (name : string) : State :=
  if negb (negb (player_sold s name) && negb (player_bought s name))
     && player_bought s name then
    match remove_first name (team_players s) with
    | Some (r, rest) =>
        mkState rest (remaining_budget s + r) (sold_players s) (bid_history s)
    | None => s
    end
  else s.

(** The "Reset Team" button (lines 1555-1557). *)
Definition reset_team (s : State) : State :=
  mkState [] TOTAL_BUDGET (sold_players s) (bid_history s).

(** A click on one of the buttons. *)
Inductive Action : Type :=
| AddToTeam (player : GuidePlayer)
| ConfirmBid (player : GuidePlayer) (bid_amount final_price : Q)
| Remove (name : string)
| ResetTeam.

Definition click (s : State) (a : Action) : State :=
  match a with
  | AddToTeam player => add_to_team s player
  | ConfirmBid player bid_amount final_price =>
      confirm_bid s player bid_amount final_price
  | Remove name => remove_from_team s name
  | ResetTeam => reset_team s
  end.

(** The state after a sequence of clicks in a fresh session. *)
Definition session (actions : list Action) : State :=
  fold_left click actions init_session_state.

(** What the team has cost: the final prices of its entries. *)
Definition spent (team : list TeamPlayer) : Q :=
  fold_right (fun p acc => Final_Price p + acc) 0 team.

(** A click whose prices are as the widgets give them: a listed price that
    is not negative, a final price that is positive. *)
Definition well_priced (a : Action) : Prop :=
  match a with
  | AddToTeam player => 0 <= notna_or (g_Price player) 0
  | ConfirmBid _ _ final_price => 0 < final_price
  | Remove _ => True
  | ResetTeam => True
  end.

End team_session.

Section TeamVocabulary.

Import team_session.
Local Open Scope string_scope.

(** What the handlers keep true of a session. *)
Definition team_invariant (s : State) : Prop :=
  remaining_budget s + spent (team_players s) == TOTAL_BUDGET
  /\ 0 <= remaining_budget s
  /\ NoDup (map Player (team_players s))
  /\ Forall (fun p => 0 <= Final_Price p /\ refund p == Final_Price p)
            (team_players s).

(** Two players of the guide and a session of four clicks. *)
Definition guide_player_1 : GuidePlayer :=
  mkGuidePlayer "Player H" (Some 30) (Some 1%Z) (Some "Man")
                (Some "Defender") (Some 1.2).

Definition guide_player_2 : GuidePlayer :=
  mkGuidePlayer "Player I" (Some 12) None None None None.

Definition sample_clicks : list Action :=
  [ AddToTeam guide_player_1; ConfirmBid guide_player_2 10 14;
    Remove "Player H"; AddToTeam guide_player_1 ].

End TeamVocabulary.

(* ===================================================================== *)
(** * Facts about the Python builtins *)
(* ===================================================================== *)

Lemma Qltb_lt (x y : Q) : Qltb x y = true <-> x < y.
Proof.
  unfold Qltb. rewrite Qlt_alt.
  destruct (x ?= y); split; congruence.
Qed.

Lemma Qltb_ge (x y : Q) : Qltb x y = false <-> y <= x.
Proof.
  rewrite <- Bool.not_true_iff_false, Qltb_lt. split.
  - apply Qnot_lt_le.
  - apply Qle_not_lt.
Qed.

Lemma cell_gtb_gt (c : cell) (q : Q) : cell_gtb c (Some q) = true <-> cell_gt c q.
Proof.
  unfold cell_gtb, cell_ltb, cell_gt. destruct c as [v|].
  - rewrite Qltb_lt. split.
    + intros H. now exists v.
    + intros (w & [= <-] & H). exact H.
  - split; [discriminate | intros (w & [=] & _)].
Qed.

Lemma py_min_Qmin (a b : Q) : py_min a b = Qmin a b.
Proof.
  unfold py_min, Qltb, Qmin, GenericMinMax.gmin.
  rewrite <- (Qcompare_antisym a b). now destruct (a ?= b).
Qed.

Lemma round_half_even_comp (x y : Q) :
  x == y -> round_half_even x = round_half_even y.
Proof.
  intros H. unfold round_half_even.
  rewrite (Qfloor_comp _ _ H).
  assert (E : x - inject_Z (Qfloor y) == y - inject_Z (Qfloor y)) by now rewrite H.
  now rewrite (Qcompare_comp _ _ E (1 # 2) (1 # 2) (Qeq_refl _)).
Qed.

Lemma py_round_n_comp (x y : Q) (n : positive) :
  x == y -> py_round_n x n = py_round_n y n.
Proof.
  intros H. unfold py_round_n. f_equal.
  apply round_half_even_comp. now rewrite H.
Qed.

Lemma Qeq_bool_false_neq (x y : Q) : Qeq_bool x y = false <-> ~ x == y.
Proof.
  rewrite <- Bool.not_true_iff_false, Qeq_bool_iff. tauto.
Qed.

(* ===================================================================== *)
(** * waterfall_dashboard.py: the maximum affordable bid *)
(* ===================================================================== *)

Section MaximumAffordableBid.

Import waterfall_dashboard.

Lemma avg_per_player_ok (remaining_budget : Q) (players_needed : Z) :
  (if (0 <? players_needed)%Z
   then py_truediv remaining_budget (inject_Z players_needed)
   else Ok 0) = Ok (spec_avg_per_player remaining_budget players_needed).
Proof.
  unfold spec_avg_per_player, py_truediv.
  destruct (0 <? players_needed)%Z eqn:Hpos; [|reflexivity].
  apply Z.ltb_lt in Hpos.
  destruct (Qeq_bool (inject_Z players_needed) 0) eqn:Hz; [|reflexivity].
  apply Qeq_bool_eq in Hz. unfold Qeq in Hz. simpl in Hz. lia.
Qed.

Lemma avg_per_player_nonneg (remaining_budget : Q) (players_needed : Z) :
  0 <= remaining_budget -> 0 <= spec_avg_per_player remaining_budget players_needed.
Proof.
  intros Hb. unfold spec_avg_per_player.
  destruct (0 <? players_needed)%Z eqn:Hpos; [|apply Qle_refl].
  apply Z.ltb_lt in Hpos.
  apply Qle_shift_div_l.
  - unfold Qlt. simpl. lia.
  - now rewrite Qmult_0_l.
Qed.

(** C3, as the code has it: the bid is [min(remainingBudget, avgPerPlayer * m)]
    with the multiplier [m] used as computed, without a clamp; it is
    non-negative whenever the remaining budget and the multiplier are. *)
Theorem calculate_max_bid_min_of_budget_and_share
  (remaining_budget : Q) (players_needed : Z) (player_value : Q)
  (is_high_priority : bool) :
  let avg := spec_avg_per_player remaining_budget players_needed in
  let m := spec_bid_multiplier player_value is_high_priority in
  exists bid,
    calculate_max_bid remaining_budget players_needed player_value
                      is_high_priority = Ok bid
    /\ bid == Qmin remaining_budget (avg * m)
    /\ (0 <= remaining_budget -> 0 <= m -> 0 <= bid).
Proof.
  intros avg m. unfold calculate_max_bid.
  rewrite avg_per_player_ok. cbn [bind]. fold avg.
  assert (E : (if is_high_priority
               then avg * (1.5 + (player_value - 1) * 0.5)
               else avg * (1 + (player_value - 1) * 0.3)) = avg * m).
  { unfold m, spec_bid_multiplier. now destruct is_high_priority. }
  rewrite E, py_min_Qmin.
  eexists. split; [reflexivity|]. split.
  - apply Q.min_comm.
  - intros Hb Hm. apply Q.min_glb; [|exact Hb].
    apply Qmult_le_0_compat; [|exact Hm].
    now apply avg_per_player_nonneg.
Qed.

Lemma calculate_max_bid_min_of_budget_and_share_witness :
  exists bid,
    calculate_max_bid 50 5 2.0 true = Ok bid /\ bid == 20 /\ 0 <= bid.
Proof.
  destruct (calculate_max_bid_min_of_budget_and_share 50 5 2.0 true)
    as (bid & Hrun & Heq & Hpos).
  exists bid. split; [exact Hrun|]. split.
  - rewrite Heq. reflexivity.
  - apply Hpos; discriminate.
Defined.

(** C3, refuted as stated: a value score below -2 makes the multiplier of a
    high-priority player negative, and the bid with it. *)
Lemma calculate_max_bid_negative :
  exists bid,
    calculate_max_bid 50 5 (-3) true = Ok bid /\ bid == -5 /\ ~ 0 <= bid.
Proof.
  eexists. split; [reflexivity|]. split.
  - reflexivity.
  - intros H. apply H. reflexivity.
Qed.

End MaximumAffordableBid.

(* ===================================================================== *)
(** * update_combined_data.py: the rules on one row *)
(* ===================================================================== *)

Section RowRules.

Import update_combined_data.
Local Open Scope string_scope.

(** C4, as the code has it: the movement is 0 for a player of one edition
    and for every row of an older edition; on an APL 8.0 row of a returning
    player it is the tier minus the historical average tier. *)
Theorem calculate_tier_movement_cases (row : RowV) :
  ((Edition_Count row <= 1)%Z -> calculate_tier_movement row = Some 0)
  /\ ((1 < Edition_Count row)%Z -> Edition row = "APL 8.0" ->
      calculate_tier_movement row
      = cell_sub (Some (inject_Z (Tier row))) (Historical_Avg_Tier row))
  /\ ((1 < Edition_Count row)%Z -> Edition row <> "APL 8.0" ->
      calculate_tier_movement row = Some 0).
Proof.
  unfold calculate_tier_movement. repeat split.
  - intros H. apply Z.leb_le in H. now rewrite H.
  - intros H E. apply Z.leb_gt in H. rewrite H.
    apply String.eqb_eq in E. now rewrite E.
  - intros H E. apply Z.leb_gt in H. rewrite H.
    apply String.eqb_neq in E. now rewrite E.
Qed.

Lemma calculate_tier_movement_cases_witness :
  calculate_tier_movement samples.new_player_row = Some 0
  /\ calculate_tier_movement samples.latest_edition_row
     = cell_sub (Some 1) (Some 1.5)
  /\ calculate_tier_movement samples.older_edition_row = Some 0.
Proof.
  split; [|split].
  - apply (proj1 (calculate_tier_movement_cases samples.new_player_row)).
    vm_compute. discriminate.
  - apply (proj1 (proj2 (calculate_tier_movement_cases samples.latest_edition_row)));
      reflexivity.
  - apply (proj2 (proj2 (calculate_tier_movement_cases samples.older_edition_row)));
      [reflexivity | discriminate].
Defined.

(** C4, refuted as stated: on the APL 7.0 row of a player of two editions
    (tier 2, historical average tier 1.5) the code returns 0, not the
    difference 0.5. *)
Lemma tier_movement_zero_on_older_edition :
  (1 < Edition_Count samples.older_edition_row)%Z
  /\ calculate_tier_movement samples.older_edition_row = Some 0
  /\ cell_sub (Some (inject_Z (Tier samples.older_edition_row)))
              (Historical_Avg_Tier samples.older_edition_row) = Some 0.5
  /\ ~ 0 == 0.5.
Proof. repeat split. discriminate. Qed.

Lemma Qltb_minus_l (p h : Q) : Qltb (p - h) 0 = Qltb p h.
Proof.
  destruct (Qltb p h) eqn:E.
  - apply Qltb_lt in E. apply Qltb_lt. lra.
  - apply Qltb_ge in E. apply Qltb_ge. lra.
Qed.

Lemma Qltb_minus_r (p h : Q) : Qltb 0 (p - h) = Qltb h p.
Proof.
  destruct (Qltb h p) eqn:E.
  - apply Qltb_lt in E. apply Qltb_lt. lra.
  - apply Qltb_ge in E. apply Qltb_ge. lra.
Qed.

Lemma calculate_value_proposition_latest (row : RowM) :
  Edition row = "APL 8.0" ->
  calculate_value_proposition row
  = Some (py_round_n (Value_Rating row * spec_tier_factor (Tier_Movement row)
                      * price_factor_of_variance row) 2).
Proof.
  intros E. apply String.eqb_eq in E.
  unfold calculate_value_proposition. now rewrite E.
Qed.

(** With the variance of step 4, its sign tells whether the price is below
    or above the historical average. *)
Lemma price_factor_of_step4_variance (row : RowM) :
  Price_Variance_From_Avg row = price_variance_from_avg row ->
  price_factor_of_variance row
  = spec_price_factor (Price row) (Historical_Avg_Price row) (Edition_Count row).
Proof.
  intros Hv. unfold price_factor_of_variance, spec_price_factor.
  rewrite Hv. unfold price_variance_from_avg.
  destruct (1 <? Edition_Count row)%Z; [|reflexivity].
  destruct (Historical_Avg_Price row) as [h|]; [|reflexivity].
  unfold cell_gtb, cell_sub, lift2, cell_ltb.
  now rewrite Qltb_minus_l, Qltb_minus_r.
Qed.

(** C2: on an APL 8.0 row the value proposition is the value rating times
    the tier factor (1.2 improved, 0.8 declined, else 1.0) times the price
    factor (for a returning player 1.2 when the price is below the historical
    average, 0.8 when above, else 1.0), rounded to 2 decimals; on a row of
    another edition it is missing; the specification's example gives 1.44. *)
Theorem calculate_value_proposition_cases (row : RowM) :
  (Edition row = "APL 8.0" ->
   Price_Variance_From_Avg row = price_variance_from_avg row ->
   calculate_value_proposition row
   = Some (py_round_n
             (Value_Rating row * spec_tier_factor (Tier_Movement row)
              * spec_price_factor (Price row) (Historical_Avg_Price row)
                                  (Edition_Count row)) 2))
  /\ (Edition row <> "APL 8.0" -> calculate_value_proposition row = None)
  /\ (Edition row = "APL 8.0" -> Value_Rating row == 1.0 ->
      Tier_Movement row = Some (-1) ->
      Price_Variance_From_Avg row = Some (-5) ->
      Edition_Count row = 2%Z ->
      calculate_value_proposition row = Some 1.44).
Proof.
  split; [|split].
  - intros E Hv. rewrite (calculate_value_proposition_latest row E).
    now rewrite (price_factor_of_step4_variance row Hv).
  - intros E. apply String.eqb_neq in E.
    unfold calculate_value_proposition. now rewrite E.
  - intros E Hr Hm Hv Hc. rewrite (calculate_value_proposition_latest row E).
    unfold price_factor_of_variance. rewrite Hm, Hv, Hc.
    change (Some 1.44) with (Some (py_round_n (1.0 * 1.2 * 1.2) 2)).
    f_equal. apply py_round_n_comp. rewrite Hr. reflexivity.
Qed.

Lemma calculate_value_proposition_cases_witness :
  calculate_value_proposition samples.value_proposition_example = Some 1.44
  /\ calculate_value_proposition
       (mkRowM samples.older_edition_row (Some 0)) = None
  /\ calculate_value_proposition
       (mkRowM samples.latest_edition_row (Some (-0.5)))
     = Some 1.54.
Proof.
  split; [|split].
  - apply (proj2 (proj2 (calculate_value_proposition_cases
                           samples.value_proposition_example)));
      reflexivity.
  - apply (proj1 (proj2 (calculate_value_proposition_cases
                           (mkRowM samples.older_edition_row (Some 0))))).
    discriminate.
  - apply (proj1 (calculate_value_proposition_cases
                    (mkRowM samples.latest_edition_row (Some (-0.5)))));
      reflexivity.
Defined.




End RowRules.

(* ===================================================================== *)
(** * generate_auction_guide.py: the auction priority *)
(* ===================================================================== *)

Section AuctionPriority.

Import generate_auction_guide.
Local Open Scope string_scope.

Lemma Auction_Priority_high (row : Row) :
  Is_Tier_Top row = true \/ cell_gt (Value_Proposition row) 1.5 ->
  Auction_Priority row = "High".
Proof.
  intros H. unfold Auction_Priority.
  assert (E : Is_Tier_Top row || cell_gtb (Value_Proposition row) (Some 1.5) = true).
  { apply Bool.orb_true_iff. destruct H as [H|H]; [now left|right].
    now apply cell_gtb_gt. }
  now rewrite E.
Qed.

Lemma Auction_Priority_not_high (row : Row) :
  ~ (Is_Tier_Top row = true \/ cell_gt (Value_Proposition row) 1.5) ->
  Auction_Priority row
  = if cell_gtb (Value_Proposition row) (Some 1.0) then "Medium" else "Low".
Proof.
  intros H. unfold Auction_Priority.
  destruct (Is_Tier_Top row || cell_gtb (Value_Proposition row) (Some 1.5)) eqn:E;
    [|reflexivity].
  exfalso. apply H. apply Bool.orb_true_iff in E.
  destruct E as [E|E]; [now left|right]. now apply cell_gtb_gt.
Qed.

Lemma high_dec (row : Row) :
  let high := Is_Tier_Top row = true \/ cell_gt (Value_Proposition row) 1.5 in
  high \/ ~ high.
Proof.
  cbv zeta.
  destruct (Is_Tier_Top row) eqn:Ht; [now left; left|].
  destruct (cell_gtb (Value_Proposition row) (Some 1.5)) eqn:Hv.
  - left; right. now apply cell_gtb_gt.
  - right. intros [H|H]; [discriminate|].
    apply cell_gtb_gt in H. congruence.
Qed.

(** C5: the priority is High exactly when the player is a tier top or the
    value proposition exceeds 1.5, Medium exactly when it is not High and the
    value proposition exceeds 1.0, and Low otherwise; (False, 1.6) is High,
    (False, 1.2) Medium and (False, 0.5) Low. *)
Theorem Auction_Priority_classes (row : Row) :
  let high := Is_Tier_Top row = true \/ cell_gt (Value_Proposition row) 1.5 in
  let medium := ~ high /\ cell_gt (Value_Proposition row) 1.0 in
  (Auction_Priority row = "High" <-> high)
  /\ (Auction_Priority row = "Medium" <-> medium)
  /\ (Auction_Priority row = "Low" <-> ~ high /\ ~ medium)
  /\ Auction_Priority (mkRow false (Some 1.6)) = "High"
  /\ Auction_Priority (mkRow false (Some 1.2)) = "Medium"
  /\ Auction_Priority (mkRow false (Some 0.5)) = "Low".
Proof.
  intros high medium.
  assert (Hcases : (high /\ Auction_Priority row = "High")
                   \/ (~ high /\ medium /\ Auction_Priority row = "Medium")
                   \/ (~ high /\ ~ medium /\ Auction_Priority row = "Low")).
  { destruct (high_dec row) as [H|H]; fold high in H.
    - left. split; [exact H|]. now apply Auction_Priority_high.
    - right. rewrite (Auction_Priority_not_high row H).
      destruct (cell_gtb (Value_Proposition row) (Some 1.0)) eqn:Hv.
      + left. repeat split; try exact H. now apply cell_gtb_gt.
      + right. repeat split; try exact H.
        intros [_ Hm]. apply cell_gtb_gt in Hm. congruence. }
  split; [|split; [|split; [|repeat split; reflexivity]]].
  - split.
    + intros E. destruct Hcases as [[H _]|[(_ & _ & E')|(_ & _ & E')]];
        [exact H | congruence | congruence].
    + intros H. destruct Hcases as [[_ E]|[(H' & _)|(H' & _)]];
        [exact E | contradiction | contradiction].
  - split.
    + intros E. destruct Hcases as [[_ E']|[(H & Hm & _)|(_ & _ & E')]];
        [congruence | exact Hm | congruence].
    + intros Hm. destruct Hcases as [[H _]|[(_ & _ & E)|(_ & Hn & _)]];
        [now destruct Hm | exact E | contradiction].
  - split.
    + intros E. destruct Hcases as [[_ E']|[(_ & _ & E')|(H & Hn & _)]];
        [congruence | congruence | now split].
    + intros [Hh Hn]. destruct Hcases as [[H _]|[(_ & Hm & _)|(_ & _ & E)]];
        [contradiction | contradiction | exact E].
Qed.

Lemma Auction_Priority_classes_witness :
  Auction_Priority (mkRow true None) = "High"
  /\ (~ (Is_Tier_Top (mkRow false (Some 1.2)) = true
         \/ cell_gt (Value_Proposition (mkRow false (Some 1.2))) 1.5)
      /\ cell_gt (Value_Proposition (mkRow false (Some 1.2))) 1.0).
Proof.
  split.
  - apply (proj2 (proj1 (Auction_Priority_classes (mkRow true None)))).
    left. reflexivity.
  - exact (proj1 (proj1 (proj2 (Auction_Priority_classes
                                  (mkRow false (Some 1.2))))) eq_refl).
Defined.

(** C10: a row whose value proposition is missing and that is not a tier top
    gets priority Low; both comparisons with the missing value are false and
    nothing is raised. *)
Theorem Auction_Priority_missing_value_proposition (row : Row) :
  Value_Proposition row = None -> Is_Tier_Top row = false ->
  Auction_Priority row = "Low".
Proof.
  intros Hv Ht. unfold Auction_Priority. now rewrite Hv, Ht.
Qed.

Lemma Auction_Priority_missing_value_proposition_witness :
  Auction_Priority (mkRow false None) = "Low".
Proof.
  apply (Auction_Priority_missing_value_proposition (mkRow false None));
    reflexivity.
Defined.

End AuctionPriority.

(* ===================================================================== *)
(** * generate_auction_top_picks.py: the auction score *)
(* ===================================================================== *)

Section AuctionScore.

Import generate_auction_top_picks.


End AuctionScore.

(* ===================================================================== *)
(** * clean_processed_data.py and combine_apl_data.py: the value rating *)
(* ===================================================================== *)

Section ValueRating.

Lemma value_rating_of_present_price (tier : Z) (price : Q) :
  0 <= price ->
  (if cell_eqb (Some price) (Some 0) then Ok (Some 0)
   else
     v <- cell_truediv (Some (inject_Z ((5 - tier) * 10))) (Some price) ;;
     Ok (cell_round_n v 2))
  = Ok (Some (spec_value_rating tier price)).
Proof.
  intros Hp. unfold spec_value_rating, cell_eqb, cell_truediv.
  destruct (Qeq_bool price 0) eqn:Hz.
  - apply Qeq_bool_eq in Hz.
    assert (E : Qltb 0 price = false) by (apply Qltb_ge; lra).
    now rewrite E.
  - apply Qeq_bool_false_neq in Hz.
    assert (E : Qltb 0 price = true) by (apply Qltb_lt; lra).
    now rewrite E.
Qed.

(** C7, as the code has it: for a tier in 1..4 and a present price >= 0 both
    implementations return round((5 - tier) * 10 / price, 2) when the price
    is positive and 0 when it is 0, without raising; on a missing price the
    combining script returns 0 and the cleaning script, which has no guard
    for it, returns the missing value. *)
Theorem value_rating_implementations (tier : Z) (price : Q) :
  (1 <= tier <= 4)%Z -> 0 <= price ->
  clean_processed_data.calculate_value
    (clean_processed_data.mkRow tier (Some price))
  = Ok (Some (spec_value_rating tier price))
  /\ combine_apl_data.calculate_value_rating
       (combine_apl_data.mkRow tier (Some price))
     = Ok (Some (spec_value_rating tier price))
  /\ combine_apl_data.calculate_value_rating
       (combine_apl_data.mkRow tier None) = Ok (Some 0)
  /\ clean_processed_data.calculate_value
       (clean_processed_data.mkRow tier None) = Ok None.
Proof.
  intros _ Hp. repeat split.
  - unfold clean_processed_data.calculate_value.
    cbn [clean_processed_data.Price clean_processed_data.Tier].
    now apply value_rating_of_present_price.
  - unfold combine_apl_data.calculate_value_rating.
    cbn [combine_apl_data.Price combine_apl_data.Tier combine_apl_data.isna].
    rewrite Bool.orb_false_r.
    now apply value_rating_of_present_price.
Qed.

Lemma value_rating_implementations_witness :
  clean_processed_data.calculate_value
    (clean_processed_data.mkRow 1 (Some 25)) = Ok (Some 1.60)
  /\ combine_apl_data.calculate_value_rating
       (combine_apl_data.mkRow 1 (Some 25)) = Ok (Some 1.60)
  /\ clean_processed_data.calculate_value
       (clean_processed_data.mkRow 4 (Some 0)) = Ok (Some 0)
  /\ combine_apl_data.calculate_value_rating
       (combine_apl_data.mkRow 4 (Some 0)) = Ok (Some 0).
Proof.
  assert (H1 : (1 <= 1 <= 4)%Z) by lia.
  assert (H4 : (1 <= 4 <= 4)%Z) by lia.
  assert (P25 : 0 <= 25) by discriminate.
  assert (P0 : 0 <= 0) by discriminate.
  destruct (value_rating_implementations 1 25 H1 P25) as (A & B & _).
  destruct (value_rating_implementations 4 0 H4 P0) as (C & D & _).
  repeat split; assumption.
Defined.

(** C7, refuted as stated: on a missing price the cleaning script's
    implementation returns the missing value, not 0, while the combining
    script's returns 0. *)
Lemma calculate_value_missing_price :
  clean_processed_data.calculate_value (clean_processed_data.mkRow 1 None)
  = Ok None
  /\ clean_processed_data.calculate_value (clean_processed_data.mkRow 1 None)
     <> Ok (Some 0)
  /\ combine_apl_data.calculate_value_rating (combine_apl_data.mkRow 1 None)
     = Ok (Some 0).
Proof. repeat split. discriminate. Qed.

End ValueRating.

(* ===================================================================== *)
(** * Data frames: a left merge on distinct right keys *)
(* ===================================================================== *)

Section MergeOnDistinctKeys.

Context {K : Type} (eq_dec : forall x y : K, {x = y} + {x <> y}).

Lemma eqb_of_true (x y : K) : eqb_of eq_dec x y = true <-> x = y.
Proof. unfold eqb_of. destruct (eq_dec x y); split; congruence. Qed.

Lemma eqb_of_refl (x : K) : eqb_of eq_dec x x = true.
Proof. now apply eqb_of_true. Qed.

Lemma filter_no_key {R : Type} (rkey : R -> K) (k : K) (right : list R) :
  ~ In k (map rkey right) ->
  filter (fun r => eqb_of eq_dec k (rkey r)) right = [].
Proof.
  induction right as [|r right IH]; intros Hk; [reflexivity|].
  cbn in *. destruct (eqb_of eq_dec k (rkey r)) eqn:E.
  - apply eqb_of_true in E. exfalso. apply Hk. now left.
  - apply IH. intros H. apply Hk. now right.
Qed.

Lemma filter_distinct_keys {R : Type} (rkey : R -> K) (k : K) (right : list R) :
  NoDup (map rkey right) ->
  filter (fun r => eqb_of eq_dec k (rkey r)) right
  = match find (fun r => eqb_of eq_dec k (rkey r)) right with
    | Some r => [r]
    | None => []
    end.
Proof.
  induction right as [|r right IH]; intros Hnd; [reflexivity|].
  cbn in *. inversion Hnd as [|? ? Hr Hnd']; subst.
  destruct (eqb_of eq_dec k (rkey r)) eqn:E.
  - apply eqb_of_true in E. subst k. now rewrite filter_no_key.
  - now apply IH.
Qed.

(** On distinct right keys every left row is kept exactly once, joined with
    the right row of its key if there is one. *)
Lemma merge_left_distinct_keys {L R O : Type} (lkey : L -> K) (rkey : R -> K)
  (join : L -> option R -> O) (left : list L) (right : list R) :
  NoDup (map rkey right) ->
  merge_left eq_dec lkey rkey join left right
  = map (fun l => join l (find (fun r => eqb_of eq_dec (lkey l) (rkey r)) right))
        left.
Proof.
  intros Hnd. unfold merge_left.
  set (rows := fun l : L =>
         match filter (fun r => eqb_of eq_dec (lkey l) (rkey r)) right with
         | [] => [join l None]
         | rs => map (fun r => join l (Some r)) rs
         end).
  induction left as [|l left IH]; [reflexivity|].
  change (flat_map rows (l :: left)) with (rows l ++ flat_map rows left).
  rewrite IH. unfold rows at 1.
  rewrite (filter_distinct_keys rkey (lkey l) right Hnd).
  cbn [map]. destruct (find _ right); reflexivity.
Qed.

Lemma groupby_keys {A : Type} (key : A -> K) (df : list A) :
  map fst (groupby eq_dec key df) = nodup eq_dec (map key df).
Proof.
  unfold groupby. rewrite map_map. cbn. apply map_id.
Qed.

Lemma groupby_keys_distinct {A : Type} (key : A -> K) (df : list A) :
  NoDup (map fst (groupby eq_dec key df)).
Proof. rewrite groupby_keys. apply NoDup_nodup. Qed.

(** The group of a key that occurs in the table is found, and holds the rows
    of that key. *)
Lemma find_group {A : Type} (key : A -> K) (df : list A) (k : K) :
  In k (map key df) ->
  find (fun g => eqb_of eq_dec k (fst g)) (groupby eq_dec key df)
  = Some (k, filter (fun a => eqb_of eq_dec (key a) k) df).
Proof.
  intros Hk. unfold groupby.
  apply (nodup_In eq_dec) in Hk.
  induction (nodup eq_dec (map key df)) as [|k' ks IH]; [contradiction|].
  cbn. destruct (eqb_of eq_dec k k') eqn:E.
  - apply eqb_of_true in E. now subst.
  - destruct Hk as [Hk|Hk].
    + subst. now rewrite eqb_of_refl in E.
    + now apply IH.
Qed.

Lemma find_map {A B : Type} (f : A -> B) (p : B -> bool) (l : list A) :
  find p (map f l) = option_map f (find (fun a => p (f a)) l).
Proof.
  induction l as [|a l IH]; [reflexivity|].
  cbn. now destruct (p (f a)).
Qed.

End MergeOnDistinctKeys.

Lemma mapM_ok {A B : Type} (f : A -> res B) (g : A -> B) (l : list A) :
  (forall a, In a l -> f a = Ok (g a)) -> mapM f l = Ok (map g l).
Proof.
  induction l as [|a l IH]; intros H; [reflexivity|].
  cbn. rewrite (H a (or_introl eq_refl)). cbn.
  rewrite IH; [reflexivity|]. intros b Hb. apply H. now right.
Qed.

(* ===================================================================== *)
(** * update_combined_data.py: the script on a table *)
(* ===================================================================== *)

Section Pipeline.

Import update_combined_data.
Local Open Scope string_scope.

Lemma history_keys_distinct (df : list RowL) :
  NoDup (map h_Player_Name (player_price_history df)).
Proof.
  unfold player_price_history. rewrite map_map.
  apply (groupby_keys_distinct string_dec (fun r : RowL => Player_Name r) df).
Qed.

Lemma ranking_keys_distinct (df : list RowP) :
  NoDup (map t_Tier (tier_rankings df)).
Proof.
  unfold tier_rankings. rewrite map_map.
  apply (groupby_keys_distinct Z.eq_dec (fun r : RowP => Tier r)).
Qed.

(** Both merges keep every row once: the script is a row-by-row map, each row
    reading the table only through its player's history and its tier's
    minimum ranking. *)
Lemma steps_1_to_7_rows (combined_df : list Row) :
  steps_1_to_7 combined_df
  = let df := map (steps_1_to_6_row combined_df) combined_df in
    map (step7_row df) df.
Proof.
  unfold steps_1_to_7.
  rewrite (merge_left_distinct_keys string_dec _ _ _ _ _
             (history_keys_distinct (map step1 combined_df))).
  rewrite !map_map.
  rewrite (merge_left_distinct_keys Z.eq_dec _ _ _ _ _
             (ranking_keys_distinct _)).
  rewrite !map_map. reflexivity.
Qed.

(** A row of the table finds the history of its own player at step 3. *)
Lemma history_of_row (combined_df : list Row) (r : Row) :
  In r combined_df ->
  history_of (map step1 combined_df) (step1 r)
  = Some (aggregate
            (Player_Name r,
             filter (fun a : RowL =>
                       eqb_of string_dec (Player_Name a) (Player_Name r))
                    (map step1 combined_df))).
Proof.
  intros Hr. unfold history_of, player_price_history.
  rewrite find_map.
  change (fun a : string * list RowL =>
            eqb_of string_dec (Player_Name (step1 r)) (h_Player_Name (aggregate a)))
    with (fun g : string * list RowL => eqb_of string_dec (Player_Name r) (fst g)).
  rewrite (find_group string_dec (fun r : RowL => Player_Name r)); [reflexivity|].
  rewrite map_map. apply in_map_iff. now exists r.
Qed.

(** Hence the historical average price is present in every row. *)
Lemma historical_avg_price_present (combined_df : list Row) (r : Row) :
  In r combined_df ->
  Historical_Avg_Price (steps_1_to_6_row combined_df r) <> None.
Proof.
  intros Hr. unfold steps_1_to_6_row. cbn.
  rewrite (history_of_row combined_df r Hr). cbn.
  assert (Hin : In (step1 r)
                  (filter (fun a : RowL =>
                             eqb_of string_dec (Player_Name a) (Player_Name r))
                          (map step1 combined_df))).
  { apply filter_In. split.
    - apply in_map_iff. now exists r.
    - apply eqb_of_refl. }
  destruct (filter _ (map step1 combined_df)) as [|g gs]; [contradiction|].
  discriminate.
Qed.


(** Step 9 raises only on a missing historical average price. *)
Lemma recommend_price_ok (row : RowE) :
  Historical_Avg_Price row <> None ->
  recommend_price row = Ok (recommended_price_of row).
Proof.
  intros Hh.
  assert (H : exists p, recommend_price row = Ok p).
  { unfold recommend_price.
    destruct (negb (Edition row =? "APL 8.0")); [now eexists|].
    destruct (1 <? Edition_Count row)%Z; [|now eexists].
    destruct (Historical_Avg_Price row) as [h|]; [|contradiction].
    destruct (Tier_Movement row) as [tm|]; cbn; [|now eexists].
    destruct (Qltb tm 0); [now eexists|].
    destruct (Qltb 0 tm); now eexists. }
  destruct H as [p Hp]. unfold recommended_price_of. now rewrite Hp.
Qed.

(** The script never raises: it returns one master row per input row. *)
Lemma update_combined_data_ok (today : string) (combined_df : list Row) :
  update_combined_data today combined_df
  = Ok (map (finish today) (steps_1_to_7 combined_df)).
Proof.
  unfold update_combined_data.
  rewrite (mapM_ok step9 (fun row => mkMasterRow row (recommended_price_of row))).
  - now rewrite map_map.
  - intros row Hrow. unfold step9.
    rewrite recommend_price_ok; [reflexivity|].
    apply in_map_iff in Hrow. destruct Hrow as (rt & <- & Hrt).
    rewrite steps_1_to_7_rows in Hrt. cbv zeta in Hrt.
    apply in_map_iff in Hrt. destruct Hrt as (rp & <- & Hrp).
    apply in_map_iff in Hrp. destruct Hrp as (r & <- & Hr).
    exact (historical_avg_price_present combined_df r Hr).
Qed.



Lemma filter_filter_andb {A : Type} (p q : A -> bool) (l : list A) :
  filter q (filter p l) = filter (fun a => p a && q a) l.
Proof.
  induction l as [|a l IH]; [reflexivity|].
  cbn. destruct (p a); cbn; [destruct (q a)|]; now rewrite IH.
Qed.

(** The rankings of the group of a tier at step 7 are those of the APL 8.0
    rows of that tier in the input table. *)
Lemma rankings_of_group (combined_df : list Row) (tier : Z) :
  map (fun r : RowP => Ranking r)
      (filter (fun a : RowP => eqb_of Z.eq_dec (Tier a) tier)
         (filter (fun r : RowP => Edition r =? "APL 8.0")
            (map (steps_1_to_6_row combined_df) combined_df)))
  = map Ranking (latest_of_tier tier combined_df).
Proof.
  rewrite filter_filter_andb, filter_map_swap, map_map.
  unfold latest_of_tier. cbn. f_equal.
  apply filter_ext. intros r. f_equal.
  unfold eqb_of. destruct (Z.eq_dec (Tier r) tier) as [E|E].
  - symmetry. now apply Z.eqb_eq.
  - symmetry. now apply Z.eqb_neq.
Qed.

(** An APL 8.0 row finds the minimum ranking of its own tier at step 7. *)
Lemma rankings_of_row (combined_df : list Row) (r : Row) :
  In r combined_df -> Edition r = "APL 8.0" ->
  Tier_Min_Ranking
    (join_tier_rankings (steps_1_to_6_row combined_df r)
       (rankings_of (map (steps_1_to_6_row combined_df) combined_df)
                    (steps_1_to_6_row combined_df r)))
  = min_ranking_of_tier (Tier r) combined_df.
Proof.
  intros Hr He. unfold rankings_of, tier_rankings.
  rewrite find_map. cbn [t_Tier].
  change (Tier (steps_1_to_6_row combined_df r)) with (Tier r).
  rewrite (find_group Z.eq_dec (fun r : RowP => Tier r)).
  - cbn. unfold min_ranking_of_tier. now rewrite rankings_of_group.
  - apply in_map_iff. exists (steps_1_to_6_row combined_df r).
    split; [reflexivity|]. apply filter_In. split.
    + apply in_map_iff. now exists r.
    + cbn. now apply String.eqb_eq.
Qed.

(** What step 7 computes: the flag of an APL 8.0 row tells whether its
    ranking is within 2 of the best ranking of its tier. *)
Lemma Is_Tier_Top_rule (combined_df : list Row) (r : Row) :
  In r combined_df ->
  Is_Tier_Top (step7_row (map (steps_1_to_6_row combined_df) combined_df)
                         (steps_1_to_6_row combined_df r))
  = if Edition r =? "APL 8.0"
    then cell_leb (Ranking r)
                  (cell_add (min_ranking_of_tier (Tier r) combined_df) (Some 2))
    else false.
Proof.
  intros Hr. unfold step7_row. cbv zeta. cbn [Is_Tier_Top].
  unfold is_tier_top.
  change (Edition (join_tier_rankings _ _)) with (Edition r).
  change (Ranking (join_tier_rankings _ _)) with (Ranking r).
  destruct (Edition r =? "APL 8.0") eqn:He; [|reflexivity].
  apply String.eqb_eq in He.
  now rewrite (rankings_of_row combined_df r Hr He).
Qed.

(** ** Step 7 on consecutive rankings *)

Lemma Qltb_inject_Z (a b : Z) : Qltb (inject_Z a) (inject_Z b) = (a <? b)%Z.
Proof.
  destruct (a <? b)%Z eqn:E.
  - apply Z.ltb_lt in E. apply Qltb_lt. now rewrite <- Zlt_Qlt.
  - apply Z.ltb_ge in E. apply Qltb_ge. now rewrite <- Zle_Qle.
Qed.

Lemma Qle_bool_inject_Z_plus2 (a b : Z) :
  Qle_bool (inject_Z a) (inject_Z b + 2) = (a <=? b + 2)%Z.
Proof.
  unfold Qle_bool. cbn. f_equal; lia.
Qed.

Lemma py_min_inject_Z (a b : Z) :
  py_min (inject_Z a) (inject_Z b) = inject_Z (Z.min a b).
Proof.
  unfold py_min. rewrite Qltb_inject_Z.
  destruct (b <? a)%Z eqn:E.
  - apply Z.ltb_lt in E. f_equal. lia.
  - apply Z.ltb_ge in E. f_equal. lia.
Qed.

Lemma fold_py_min_inject_Z (l : list Z) (x : Z) :
  fold_left py_min (map inject_Z l) (inject_Z x)
  = inject_Z (fold_left Z.min l x).
Proof.
  revert x. induction l as [|a l IH]; intros x; [reflexivity|].
  cbn. now rewrite py_min_inject_Z, IH.
Qed.

Lemma fold_Z_min_le (l : list Z) (x : Z) :
  (fold_left Z.min l x <= x)%Z
  /\ Forall (fun a => (fold_left Z.min l x <= a)%Z) l
  /\ (fold_left Z.min l x = x \/ In (fold_left Z.min l x) l).
Proof.
  revert x. induction l as [|a l IH]; intros x.
  - cbn. repeat split; [lia | constructor | now left].
  - cbn. destruct (IH (Z.min x a)) as (H1 & H2 & H3). repeat split.
    + lia.
    + constructor; [lia | exact H2].
    + destruct H3 as [H3|H3]; [|now right; right].
      destruct (Z.min_spec x a) as [[_ E]|[_ E]]; rewrite E in *.
      * now left.
      * right; left. now rewrite H3.
Qed.

(** The least of a list that holds [m] and nothing below it. *)
Lemma agg_min_least (zs : list Z) (m : Z) :
  In m zs -> Forall (fun a => (m <= a)%Z) zs ->
  agg_min (map inject_Z zs) = Some (inject_Z m).
Proof.
  intros Hin Hle. destruct zs as [|x l]; [contradiction|].
  cbn [map agg_min]. rewrite fold_py_min_inject_Z. do 2 f_equal.
  destruct (fold_Z_min_le l x) as (H1 & H2 & H3).
  set (v := fold_left Z.min l x) in *.
  assert (Hv : In v (x :: l)) by (destruct H3 as [->|H3]; [now left|now right]).
  assert (Hm : (v <= m)%Z).
  { destruct Hin as [<-|Hin]; [exact H1|].
    rewrite Forall_forall in H2. now apply H2. }
  rewrite Forall_forall in Hle. specialize (Hle v Hv). lia.
Qed.

Lemma present_all (zs : list Z) :
  present (map (fun z => Some (inject_Z z)) zs) = map inject_Z zs.
Proof.
  induction zs as [|z zs IH]; [reflexivity|].
  cbn. f_equal. exact IH.
Qed.

Lemma filter_length_Permutation {A : Type} (p : A -> bool) (l l' : list A) :
  Permutation l l' -> length (filter p l) = length (filter p l').
Proof.
  induction 1 as [|a l l' _ IH|a b l|l l' l'' _ IH1 _ IH2].
  - reflexivity.
  - cbn. destruct (p a); cbn; now rewrite IH.
  - cbn. destruct (p a), (p b); reflexivity.
  - now rewrite IH1.
Qed.

Lemma count_below_seq (j a n : nat) :
  length (filter (fun i => i <? j)%nat (seq a n)) = Nat.min n (j - a).
Proof.
  revert a. induction n as [|n IH]; intros a; [reflexivity|].
  cbn [seq filter]. destruct (a <? j)%nat eqn:E.
  - apply Nat.ltb_lt in E. cbn [length]. rewrite IH. lia.
  - apply Nat.ltb_ge in E. rewrite IH. lia.
Qed.

(** Among the consecutive rankings [m .. m+n-1], [j] are below [m + j]. *)
Lemma count_below_consecutive (m : Z) (n j : nat) :
  (j < n)%nat ->
  length (filter (fun z => (z <? m + Z.of_nat j)%Z)
            (map (fun i => (m + Z.of_nat i)%Z) (seq 0 n))) = j.
Proof.
  intros Hj. rewrite filter_map_swap, length_map.
  rewrite (filter_ext _ (fun i => i <? j)%nat).
  - rewrite count_below_seq. lia.
  - intros i. destruct (i <? j)%nat eqn:E.
    + apply Nat.ltb_lt in E. apply Z.ltb_lt. lia.
    + apply Nat.ltb_ge in E. apply Z.ltb_ge. lia.
Qed.

(** When the APL 8.0 rows of a tier carry the consecutive rankings
    [m .. m+n-1], each once, the flag of step 7 on a row of that tier tells
    whether it is among the top 3 of the tier. *)
Lemma Is_Tier_Top_rule_on_consecutive_rankings
  (combined_df : list Row) (r : Row) (zs : list Z) (m : Z) (n : nat) :
  In r combined_df -> Edition r = "APL 8.0" ->
  map Ranking (latest_of_tier (Tier r) combined_df)
  = map (fun z => Some (inject_Z z)) zs ->
  Permutation zs (map (fun i => (m + Z.of_nat i)%Z) (seq 0 n)) ->
  Is_Tier_Top (step7_row (map (steps_1_to_6_row combined_df) combined_df)
                         (steps_1_to_6_row combined_df r))
  = spec_is_tier_top combined_df r.
Proof.
  intros Hr He Hrank Hperm.
  rewrite (Is_Tier_Top_rule combined_df r Hr).
  unfold spec_is_tier_top, min_ranking_of_tier, ranked_above.
  apply String.eqb_eq in He. rewrite He. cbn [andb].
  (* the row is one of the APL 8.0 rows of its tier *)
  assert (Hin : In (Ranking r) (map Ranking (latest_of_tier (Tier r) combined_df))).
  { apply in_map. apply filter_In. split; [exact Hr|].
    rewrite He. cbn. apply Z.eqb_refl. }
  rewrite Hrank in Hin. apply in_map_iff in Hin.
  destruct Hin as (z & Hz & Hzin). rewrite <- Hz.
  assert (Hseq : In z (map (fun i => (m + Z.of_nat i)%Z) (seq 0 n)))
    by now apply (Permutation_in _ Hperm).
  apply in_map_iff in Hseq. destruct Hseq as (j & Hj & Hjn).
  apply in_seq in Hjn.
  (* the minimum ranking of the tier is m *)
  assert (Hmin : agg_min (map inject_Z zs) = Some (inject_Z m)).
  { apply agg_min_least.
    - apply (Permutation_in _ (Permutation_sym Hperm)).
      apply in_map_iff. exists 0%nat. split; [cbn; lia|]. apply in_seq. lia.
    - apply Forall_forall. intros a Ha.
      apply (Permutation_in _ Hperm) in Ha. apply in_map_iff in Ha.
      destruct Ha as (i & <- & _). lia. }
  rewrite Hrank, present_all, Hmin.
  cbn [cell_add lift2 cell_leb]. rewrite Qle_bool_inject_Z_plus2.
  (* the rows ranked better are j *)
  assert (Hcount : length (filter (fun r' : Row =>
                                     cell_ltb (Ranking r') (Some (inject_Z z)))
                             (latest_of_tier (Tier r) combined_df)) = j).
  { rewrite <- (length_map Ranking).
    rewrite <- (filter_map_swap (fun c => cell_ltb c (Some (inject_Z z))) Ranking).
    rewrite Hrank, filter_map_swap, length_map.
    rewrite (filter_ext _ (fun z' => (z' <? z)%Z))
      by (intros z'; apply Qltb_inject_Z).
    rewrite (filter_length_Permutation _ _ _ Hperm).
    rewrite <- Hj. apply count_below_consecutive. lia. }
  rewrite Hcount.
  destruct (j <? 3)%nat eqn:E.
  - apply Nat.ltb_lt in E. apply Z.leb_le. lia.
  - apply Nat.ltb_ge in E. apply Z.leb_gt. lia.
Qed.

(** The flag of step 7 is false on every row of an older edition. *)
Lemma Is_Tier_Top_false_outside_latest (today : string) (combined_df : list Row)
  (out : list MasterRow) (row : MasterRow) :
  update_combined_data today combined_df = Ok out ->
  In row out -> Edition row <> "APL 8.0" -> Is_Tier_Top row = false.
Proof.
  rewrite update_combined_data_ok. intros [= <-] Hrow He.
  apply in_map_iff in Hrow. destruct Hrow as (rt & <- & Hrt).
  rewrite steps_1_to_7_rows in Hrt. cbv zeta in Hrt.
  apply in_map_iff in Hrt. destruct Hrt as (rp & <- & _).
  cbn in *. unfold is_tier_top. cbn.
  apply String.eqb_neq in He. now rewrite He.
Qed.

(** C8, the code on a tier whose rankings have a gap: of two APL 8.0 players
    of tier 1 ranked 1 and 4, both among the top 3 of their tier, only the
    first is flagged. *)
Theorem Is_Tier_Top_misses_ranking_gap (today : string) :
  exists out,
    update_combined_data today samples.ranking_gap_table = Ok out
    /\ map (fun row : MasterRow => Is_Tier_Top row) out = [true; false]
    /\ map (spec_is_tier_top samples.ranking_gap_table)
           samples.ranking_gap_table = [true; true].
Proof.
  eexists. split; [apply update_combined_data_ok|].
  split; reflexivity.
Qed.

End Pipeline.

(* ===================================================================== *)
(** * More facts about rounding *)
(* ===================================================================== *)

Section Rounding.

Lemma round_half_even_cases (x : Q) :
  let f := Qfloor x in
  (round_half_even x = f /\ x - inject_Z f <= 1 # 2)
  \/ (round_half_even x = (f + 1)%Z /\ 1 # 2 <= x - inject_Z f).
Proof.
  cbv zeta. unfold round_half_even.
  destruct (Qcompare_spec (x - inject_Z (Qfloor x)) (1 # 2)) as [E|E|E].
  - destruct (Z.even (Qfloor x)); [left|right]; split; try reflexivity;
      rewrite E; apply Qle_refl.
  - left. split; [reflexivity|]. now apply Qlt_le_weak.
  - right. split; [reflexivity|]. now apply Qlt_le_weak.
Qed.

Lemma Qfloor_bounds (x : Q) :
  inject_Z (Qfloor x) <= x /\ x < inject_Z (Qfloor x) + 1.
Proof.
  split; [apply Qfloor_le|].
  pose proof (Qlt_floor x) as H. rewrite inject_Z_plus in H. exact H.
Qed.

(** Rounding is within one half of its argument. *)
Lemma round_half_even_near (x : Q) :
  x - (1 # 2) <= inject_Z (round_half_even x) <= x + (1 # 2).
Proof.
  destruct (Qfloor_bounds x) as [Hl Hu].
  destruct (round_half_even_cases x) as [[-> H]|[-> H]].
  - split; lra.
  - rewrite inject_Z_plus. change (inject_Z 1) with 1. split; lra.
Qed.

(** A whole number rounds to itself. *)
Lemma round_half_even_inject_Z (z : Z) : round_half_even (inject_Z z) = z.
Proof.
  unfold round_half_even. rewrite Qfloor_Z.
  assert (E : inject_Z z - inject_Z z == 0) by ring.
  rewrite (Qcompare_comp _ _ E (1 # 2) (1 # 2) (Qeq_refl _)). reflexivity.
Qed.

(** Above [n - 1/2] the rounding is at least [n]. *)
Lemma round_half_even_above (n : Z) (x : Q) :
  inject_Z n - (1 # 2) < x -> (n <= round_half_even x)%Z.
Proof.
  intros H. pose proof (round_half_even_near x) as [Hl _].
  assert (Hz : (n - 1 < round_half_even x)%Z).
  { rewrite Zlt_Qlt. unfold Z.sub. rewrite inject_Z_plus, inject_Z_opp.
    change (inject_Z 1) with 1. lra. }
  lia.
Qed.

(** Below [n + 1/2] the rounding is at most [n]. *)
Lemma round_half_even_below (n : Z) (x : Q) :
  x < inject_Z n + (1 # 2) -> (round_half_even x <= n)%Z.
Proof.
  intros H. pose proof (round_half_even_near x) as [_ Hu].
  assert (Hz : (round_half_even x < n + 1)%Z).
  { rewrite Zlt_Qlt, inject_Z_plus. change (inject_Z 1) with 1. lra. }
  lia.
Qed.

(** Rounding is monotone. *)
Lemma round_half_even_mono (x y : Q) :
  x <= y -> (round_half_even x <= round_half_even y)%Z.
Proof.
  intros Hxy.
  pose proof (Qfloor_resp_le _ _ Hxy) as Hf.
  destruct (Qfloor_bounds x) as [Hxl Hxu].
  destruct (Qfloor_bounds y) as [Hyl Hyu].
  destruct (Z.eq_dec (Qfloor x) (Qfloor y)) as [E|E].
  - unfold round_half_even. rewrite <- E.
    destruct (Qcompare_spec (x - inject_Z (Qfloor x)) (1 # 2)) as [Ex|Ex|Ex];
      destruct (Qcompare_spec (y - inject_Z (Qfloor x)) (1 # 2)) as [Ey|Ey|Ey];
      try destruct (Z.even (Qfloor x)); try lia; exfalso; lra.
  - destruct (round_half_even_cases x) as [[-> _]|[-> _]];
      destruct (round_half_even_cases y) as [[-> _]|[-> _]]; lia.
Qed.

End Rounding.

(* ===================================================================== *)
(** * update_combined_data.py: what the master table holds *)
(* ===================================================================== *)

Section MasterTable.

Import update_combined_data.
Local Open Scope string_scope.

(** The script returns the master rows of its input rows, in order. *)
Lemma update_combined_data_rows (today : string) (combined_df : list Row) :
  update_combined_data today combined_df
  = Ok (map (master_row today combined_df) combined_df).
Proof.
  rewrite update_combined_data_ok, steps_1_to_7_rows. cbv zeta.
  now rewrite !map_map.
Qed.

Lemma Forall_master_rows (today : string) (combined_df : list Row)
  (P : MasterRow -> Prop) :
  (forall r, In r combined_df -> P (master_row today combined_df r)) ->
  exists out,
    update_combined_data today combined_df = Ok out /\ Forall P out.
Proof.
  intros H. eexists. split; [apply update_combined_data_rows|].
  apply Forall_forall. intros row Hrow.
  apply in_map_iff in Hrow. destruct Hrow as (r & <- & Hr). now apply H.
Qed.

Lemma group_prices (combined_df : list Row) (name : string) (f : Row -> Q) :
  map (fun r : RowL => f r)
      (filter (fun a : RowL => eqb_of string_dec (Player_Name a) name)
              (map step1 combined_df))
  = map f (rows_of_player name combined_df).
Proof.
  rewrite filter_map_swap, map_map. reflexivity.
Qed.

(** The history columns of the master row of [r]. *)
Lemma master_row_history (today : string) (combined_df : list Row) (r : Row) :
  In r combined_df ->
  let row := master_row today combined_df r in
  let rows := rows_of_player (Player_Name r) combined_df in
  In r rows
  /\ Historical_Avg_Price row = cell_round_n (agg_mean (map Price rows)) 1
  /\ Historical_Min_Price row = agg_min (map Price rows)
  /\ Historical_Max_Price row = agg_max (map Price rows)
  /\ Historical_Avg_Tier row
     = cell_round_n (agg_mean (map (fun r => inject_Z (Tier r)) rows)) 1.
Proof.
  intros Hr row rows. split.
  { apply filter_In. split; [exact Hr | apply eqb_of_refl]. }
  unfold row, master_row, finish, step7_row, steps_1_to_6_row. cbn.
  rewrite (history_of_row combined_df r Hr). cbn.
  rewrite (group_prices combined_df (Player_Name r) Price).
  rewrite (group_prices combined_df (Player_Name r) (fun r => inject_Z (Tier r))).
  repeat split.
Qed.

(** X1: in the master table the history columns of a row are the rounded
    mean, the minimum and the maximum of the prices (and the rounded mean of
    the tiers) of all rows of the same player in the input table, the row's
    own edition included. *)
Theorem history_columns_aggregate_player_rows (today : string)
  (combined_df : list Row) :
  exists out,
    update_combined_data today combined_df = Ok out
    /\ Forall
         (fun row : MasterRow =>
            let rows := rows_of_player (Player_Name row) combined_df in
            In (base row) rows
            /\ Historical_Avg_Price row
               = cell_round_n (agg_mean (map Price rows)) 1
            /\ Historical_Min_Price row = agg_min (map Price rows)
            /\ Historical_Max_Price row = agg_max (map Price rows)
            /\ Historical_Avg_Tier row
               = cell_round_n
                   (agg_mean (map (fun r => inject_Z (Tier r)) rows)) 1)
         out.
Proof.
  apply Forall_master_rows. intros r Hr.
  exact (master_row_history today combined_df r Hr).
Qed.

Lemma py_min_le_l (a b : Q) : py_min a b <= a.
Proof.
  unfold py_min. destruct (Qltb b a) eqn:E.
  - apply Qltb_lt in E. now apply Qlt_le_weak.
  - apply Qle_refl.
Qed.

Lemma py_min_le_r (a b : Q) : py_min a b <= b.
Proof.
  unfold py_min. destruct (Qltb b a) eqn:E.
  - apply Qle_refl.
  - now apply Qltb_ge in E.
Qed.



Lemma fold_py_min_le (l : list Q) (x : Q) :
  fold_left py_min l x <= x
  /\ forall y, In y l -> fold_left py_min l x <= y.
Proof.
  revert x. induction l as [|a l IH]; intros x.
  - split; [apply Qle_refl | contradiction].
  - cbn. destruct (IH (py_min x a)) as [H1 H2]. split.
    + apply (Qle_trans _ _ _ H1), py_min_le_l.
    + intros y [<-|Hy]; [|now apply H2].
      apply (Qle_trans _ _ _ H1), py_min_le_r.
Qed.


(** The minimum of a column is one of its values. *)
Lemma fold_py_min_In (l : list Q) (x : Q) : In (fold_left py_min l x) (x :: l).
Proof.
  revert x. induction l as [|a l IH]; intros x; [now left|].
  cbn [fold_left]. destruct (IH (py_min x a)) as [H|H].
  - unfold py_min in H at 1. destruct (Qltb a x).
    + right; left. exact H.
    + left. exact H.
  - right; right. exact H.
Qed.

Lemma agg_min_spec (l : list Q) (y : Q) :
  In y l -> exists lo, agg_min l = Some lo /\ In lo l /\ lo <= y.
Proof.
  destruct l as [|x l]; [contradiction|]. intros Hy.
  exists (fold_left py_min l x). split; [reflexivity|].
  split; [apply fold_py_min_In|].
  destruct (fold_py_min_le l x) as [H1 H2].
  destruct Hy as [<-|Hy]; [exact H1 | now apply H2].
Qed.






Lemma In_present (l : list cell) (q : Q) : In q (present l) <-> In (Some q) l.
Proof.
  unfold present. rewrite in_flat_map. split.
  - intros (c & Hc & Hq). destruct c as [x|]; [|contradiction].
    destruct Hq as [<-|[]]. exact Hc.
  - intros H. exists (Some q). split; [exact H | now left].
Qed.

Lemma master_row_Is_Tier_Top (today : string) (combined_df : list Row) (r : Row) :
  In r combined_df ->
  Is_Tier_Top (master_row today combined_df r)
  = if Edition r =? "APL 8.0"
    then cell_leb (Ranking r)
                  (cell_add (min_ranking_of_tier (Tier r) combined_df) (Some 2))
    else false.
Proof.
  intros Hr. rewrite <- (Is_Tier_Top_rule combined_df r Hr). reflexivity.
Qed.

(** X4: in the master table a tier top is always an APL 8.0 row whose
    ranking is present and within 2 of the best ranking of its tier, and an
    APL 8.0 row that no APL 8.0 row of its tier outranks is always a tier
    top. *)
Theorem tier_tops_are_ranked_and_include_the_best (today : string)
  (combined_df : list Row) :
  exists out,
    update_combined_data today combined_df = Ok out
    /\ Forall
         (fun row : MasterRow =>
            (Is_Tier_Top row = true ->
             Edition row = "APL 8.0"
             /\ exists q m,
                  Ranking row = Some q
                  /\ min_ranking_of_tier (Tier row) combined_df = Some m
                  /\ m <= q <= m + 2)
            /\ (Edition row = "APL 8.0" ->
                forall q, Ranking row = Some q ->
                (forall r' q', In r' (latest_of_tier (Tier row) combined_df) ->
                               Ranking r' = Some q' -> q <= q') ->
                Is_Tier_Top row = true))
         out.
Proof.
  apply Forall_master_rows. intros r Hr.
  rewrite (master_row_Is_Tier_Top today combined_df r Hr).
  change (Edition (master_row today combined_df r)) with (Edition r).
  change (Ranking (master_row today combined_df r)) with (Ranking r).
  change (Tier (master_row today combined_df r)) with (Tier r).
  assert (Hrank : forall q, Edition r = "APL 8.0" -> Ranking r = Some q ->
            exists m, min_ranking_of_tier (Tier r) combined_df = Some m
                      /\ m <= q
                      /\ exists r', In r' (latest_of_tier (Tier r) combined_df)
                                    /\ Ranking r' = Some m).
  { intros q He Hq.
    assert (Hin : In q (present (map Ranking (latest_of_tier (Tier r) combined_df)))).
    { apply In_present. rewrite <- Hq. apply in_map. apply filter_In.
      split; [exact Hr|]. apply String.eqb_eq in He. rewrite He. cbn.
      apply Z.eqb_refl. }
    destruct (agg_min_spec _ _ Hin) as (m & Em & Hm & Hle).
    exists m. split; [exact Em|]. split; [exact Hle|].
    apply In_present, in_map_iff in Hm. destruct Hm as (r' & Hr' & Hin').
    now exists r'. }
  split.
  - destruct (Edition r =? "APL 8.0") eqn:E; [|discriminate].
    apply String.eqb_eq in E. intros Hflag. split; [exact E|].
    destruct (Ranking r) as [q|] eqn:Eq; [|discriminate].
    destruct (Hrank q E eq_refl) as (m & Em & Hle & _).
    rewrite Em in Hflag. cbn in Hflag. apply Qle_bool_iff in Hflag.
    exists q, m. repeat split; assumption.
  - intros E q Hq Hbest.
    destruct (Hrank q E Hq) as (m & Em & Hle & r' & Hin' & Hr').
    pose proof (Hbest r' m Hin' Hr') as Hqm.
    apply String.eqb_eq in E. rewrite E, Hq, Em. cbn.
    apply Qle_bool_iff. lra.
Qed.

End MasterTable.

(* ===================================================================== *)
(** * update_combined_data.py: bounds of the derived scores *)
(* ===================================================================== *)

Section ScoreBounds.

Import update_combined_data.
Local Open Scope string_scope.

Lemma py_round_n_mono (x y : Q) (n : positive) :
  x <= y -> py_round_n x n <= py_round_n y n.
Proof.
  intros H. unfold py_round_n, Qle. cbn [Qnum Qden].
  apply Z.mul_le_mono_nonneg_r; [lia|].
  apply round_half_even_mono.
  apply Qmult_le_compat_r; [exact H|]. unfold Qle. cbn. lia.
Qed.

Lemma spec_tier_factor_range (tierMovement : cell) :
  0.8 <= spec_tier_factor tierMovement <= 1.2.
Proof.
  unfold spec_tier_factor.
  destruct (cell_ltb tierMovement (Some 0)); [split; discriminate|].
  destruct (cell_gtb tierMovement (Some 0)); split; discriminate.
Qed.

Lemma price_factor_of_variance_range (row : RowM) :
  0.8 <= price_factor_of_variance row <= 1.2.
Proof.
  unfold price_factor_of_variance.
  destruct (1 <? Edition_Count row)%Z; [|split; discriminate].
  destruct (cell_ltb (Price_Variance_From_Avg row) (Some 0)); [split; discriminate|].
  destruct (cell_gtb (Price_Variance_From_Avg row) (Some 0)); split; discriminate.
Qed.

(** X5: on an APL 8.0 row with a non-negative value rating the value
    proposition lies between 64% and 144% of the value rating, each rounded
    to 2 decimals. *)
Theorem value_proposition_within_factor_range (row : RowM) :
  Edition row = "APL 8.0" -> 0 <= Value_Rating row ->
  exists v,
    calculate_value_proposition row = Some v
    /\ py_round_n (0.64 * Value_Rating row) 2 <= v
    /\ v <= py_round_n (1.44 * Value_Rating row) 2.
Proof.
  intros E Hr. rewrite (calculate_value_proposition_latest row E).
  eexists. split; [reflexivity|].
  pose proof (spec_tier_factor_range (Tier_Movement row)) as [Ht1 Ht2].
  pose proof (price_factor_of_variance_range row) as [Hp1 Hp2].
  set (t := spec_tier_factor (Tier_Movement row)) in *.
  set (p := price_factor_of_variance row) in *.
  set (r := Value_Rating row) in *.
  assert (H1 : 0.8 * r <= r * t) by nra.
  assert (H2 : r * t <= 1.2 * r) by nra.
  assert (H3 : 0 <= r * t) by nra.
  set (rt := r * t) in *.
  split; apply py_round_n_mono; nra.
Qed.

Lemma value_proposition_within_factor_range_witness :
  exists v,
    calculate_value_proposition samples.value_proposition_example = Some v
    /\ 0.64 <= v /\ v <= 1.44.
Proof.
  destruct (value_proposition_within_factor_range
              samples.value_proposition_example eq_refl)
    as (v & Hv & Hlo & Hhi); [discriminate|].
  exists v. split; [exact Hv|]. split; [exact Hlo | exact Hhi].
Defined.





End ScoreBounds.

(* ===================================================================== *)
(** * waterfall_dashboard.py: how the maximum bid moves *)
(* ===================================================================== *)

Section MaximumBidOrder.

Import waterfall_dashboard.

Lemma calculate_max_bid_eq (remaining_budget : Q) (players_needed : Z)
  (player_value : Q) (is_high_priority : bool) :
  calculate_max_bid remaining_budget players_needed player_value
                    is_high_priority
  = Ok (py_min (spec_avg_per_player remaining_budget players_needed
                * spec_bid_multiplier player_value is_high_priority)
               remaining_budget).
Proof.
  unfold calculate_max_bid. rewrite avg_per_player_ok. cbn [bind].
  unfold spec_bid_multiplier. now destruct is_high_priority.
Qed.

Lemma py_min_mono_l (a a' b : Q) : a <= a' -> py_min a b <= py_min a' b.
Proof.
  intros H. rewrite !py_min_Qmin. now apply Q.min_le_compat_r.
Qed.

(** X7: with a non-negative remaining budget the maximum bid never goes down
    when the value score goes up, and for a value score of at least -1.5 it
    is never lower for a high-priority player than for another one. *)
Theorem calculate_max_bid_monotone (remaining_budget : Q) (players_needed : Z)
  (v v' : Q) (is_high_priority : bool) :
  0 <= remaining_budget -> v <= v' ->
  exists bid bid' low high,
    calculate_max_bid remaining_budget players_needed v is_high_priority
    = Ok bid
    /\ calculate_max_bid remaining_budget players_needed v' is_high_priority
       = Ok bid'
    /\ bid <= bid'
    /\ calculate_max_bid remaining_budget players_needed v false = Ok low
    /\ calculate_max_bid remaining_budget players_needed v true = Ok high
    /\ (-1.5 <= v -> low <= high).
Proof.
  intros Hb Hv. rewrite !calculate_max_bid_eq.
  pose proof (avg_per_player_nonneg remaining_budget players_needed Hb) as Ha.
  set (avg := spec_avg_per_player remaining_budget players_needed) in *.
  do 4 eexists. split; [reflexivity|]. split; [reflexivity|]. split.
  { apply py_min_mono_l. unfold spec_bid_multiplier.
    destruct is_high_priority; nra. }
  split; [reflexivity|]. split; [reflexivity|].
  intros Hlow. apply py_min_mono_l. unfold spec_bid_multiplier. nra.
Qed.

Lemma calculate_max_bid_monotone_witness :
  exists bid bid' low high,
    calculate_max_bid 50 5 1.0 true = Ok bid
    /\ calculate_max_bid 50 5 2.0 true = Ok bid'
    /\ bid <= bid'
    /\ calculate_max_bid 50 5 1.0 false = Ok low
    /\ calculate_max_bid 50 5 1.0 true = Ok high
    /\ low <= high.
Proof.
  destruct (calculate_max_bid_monotone 50 5 1.0 2.0 true)
    as (bid & bid' & low & high & H1 & H2 & H3 & H4 & H5 & H6);
    [discriminate | discriminate |].
  exists bid, bid', low, high. repeat split; try assumption.
  apply H6. discriminate.
Defined.

(** X8: with a non-negative remaining budget the maximum bid is 0 when no
    player is needed any more, and it is the whole remaining budget when one
    player is needed and the value score is at least 1. *)
Theorem calculate_max_bid_team_complete_or_last_slot (remaining_budget : Q)
  (players_needed : Z) (player_value : Q) (is_high_priority : bool) :
  0 <= remaining_budget ->
  exists bid,
    calculate_max_bid remaining_budget players_needed player_value
                      is_high_priority = Ok bid
    /\ ((players_needed <= 0)%Z -> bid == 0)
    /\ (players_needed = 1%Z -> 1 <= player_value -> bid == remaining_budget).
Proof.
  intros Hb. rewrite calculate_max_bid_eq, py_min_Qmin.
  eexists. split; [reflexivity|]. unfold spec_avg_per_player. split.
  - intros Hn. apply Z.ltb_ge in Hn. rewrite Hn.
    rewrite Qmult_0_l. now apply Q.min_l.
  - intros -> Hv. cbn [Z.ltb Z.compare].
    apply Q.min_r. unfold spec_bid_multiplier.
    assert (E : remaining_budget / inject_Z 1 == remaining_budget) by (field).
    rewrite E. destruct is_high_priority; nra.
Qed.

Lemma calculate_max_bid_team_complete_or_last_slot_witness :
  (exists bid, calculate_max_bid 50 0 2.0 true = Ok bid /\ bid == 0)
  /\ (exists bid, calculate_max_bid 50 1 2.0 false = Ok bid /\ bid == 50).
Proof.
  assert (H50 : 0 <= 50) by discriminate.
  split.
  - destruct (calculate_max_bid_team_complete_or_last_slot 50 0 2.0 true H50)
      as (bid & Hb & H0 & _).
    exists bid. split; [exact Hb|]. apply H0. discriminate.
  - destruct (calculate_max_bid_team_complete_or_last_slot 50 1 2.0 false H50)
      as (bid & Hb & _ & H1).
    exists bid. split; [exact Hb|]. apply H1; [reflexivity | discriminate].
Defined.

End MaximumBidOrder.

(* ===================================================================== *)
(** * generate_auction_guide.py: the bidding strategy *)
(* ===================================================================== *)

Section BiddingStrategy.

Import auction_guide_rows.
Local Open Scope string_scope.

(** X9: the lower end of the bidding range is at least 5, and the range is
    in order (lower end not above upper end) exactly when the recommended
    price exceeds 3.75. *)
Theorem bidding_range_in_order_iff (rec_price : Q) :
  (5 <= min_bid rec_price)%Z
  /\ ((min_bid rec_price <= max_bid rec_price)%Z <-> 3.75 < rec_price).
Proof.
  unfold min_bid, max_bid. split; [lia|]. split.
  - intros H. destruct (Qlt_le_dec 3.75 rec_price) as [Hr|Hr]; [exact Hr|].
    exfalso.
    assert (H4 : (round_half_even (rec_price * 1.2) <= round_half_even 4.5)%Z).
    { apply round_half_even_mono. lra. }
    change (round_half_even 4.5) with 4%Z in H4. lia.
  - intros Hr. apply Z.max_lub.
    + apply round_half_even_above. change (inject_Z 5) with 5. lra.
    + apply round_half_even_mono. lra.
Qed.

Lemma In_notes_top (row : Row) :
  In "Top in tier" (notes row) <-> Is_Tier_Top row = true.
Proof.
  unfold notes. rewrite !in_app_iff.
  destruct (1 <? Edition_Count row)%Z,
    (cell_ltb (Tier_Movement row) (Some 0)),
    (cell_gtb (Tier_Movement row) (Some 0)),
    (cell_ltb (Price_Variance_From_Avg row) (Some (-10))),
    (cell_gtb (Price_Variance_From_Avg row) (Some 10)),
    (cell_gtb (Value_Proposition row) (Some 1.5)),
    (cell_ltb (Value_Proposition row) (Some 0.5)),
    (Is_Tier_Top row); cbn; intuition (try discriminate; auto).
Qed.

Lemma In_notes_excellent (row : Row) :
  In "Excellent value" (notes row)
  <-> cell_gtb (Value_Proposition row) (Some 1.5) = true.
Proof.
  unfold notes. rewrite !in_app_iff.
  destruct (1 <? Edition_Count row)%Z,
    (cell_ltb (Tier_Movement row) (Some 0)),
    (cell_gtb (Tier_Movement row) (Some 0)),
    (cell_ltb (Price_Variance_From_Avg row) (Some (-10))),
    (cell_gtb (Price_Variance_From_Avg row) (Some 10)),
    (cell_gtb (Value_Proposition row) (Some 1.5)),
    (cell_ltb (Value_Proposition row) (Some 0.5)),
    (Is_Tier_Top row); cbn; intuition (try discriminate; auto).
Qed.

Lemma In_notes_poor (row : Row) :
  In "Poor value" (notes row)
  <-> cell_gtb (Value_Proposition row) (Some 1.5) = false
      /\ cell_ltb (Value_Proposition row) (Some 0.5) = true.
Proof.
  unfold notes. rewrite !in_app_iff.
  destruct (1 <? Edition_Count row)%Z,
    (cell_ltb (Tier_Movement row) (Some 0)),
    (cell_gtb (Tier_Movement row) (Some 0)),
    (cell_ltb (Price_Variance_From_Avg row) (Some (-10))),
    (cell_gtb (Price_Variance_From_Avg row) (Some 10)),
    (cell_gtb (Value_Proposition row) (Some 1.5)),
    (cell_ltb (Value_Proposition row) (Some 0.5)),
    (Is_Tier_Top row); cbn; intuition (try discriminate; auto).
Qed.

(** X10: the notes of the bidding strategy agree with the auction priority:
    the priority is High exactly when the notes hold "Top in tier" or
    "Excellent value", and a row noted "Poor value" is never Medium. *)
Theorem notes_agree_with_priority (row : Row) :
  (generate_auction_guide.Auction_Priority (priority_columns row) = "High"
   <-> In "Top in tier" (notes row) \/ In "Excellent value" (notes row))
  /\ (In "Poor value" (notes row) ->
      generate_auction_guide.Auction_Priority (priority_columns row) <> "Medium").
Proof.
  rewrite In_notes_top, In_notes_excellent, In_notes_poor.
  unfold generate_auction_guide.Auction_Priority, priority_columns.
  cbn [generate_auction_guide.Is_Tier_Top generate_auction_guide.Value_Proposition].
  split.
  - destruct (Is_Tier_Top row),
      (cell_gtb (Value_Proposition row) (Some 1.5)),
      (cell_gtb (Value_Proposition row) (Some 1.0));
      cbn; intuition (try discriminate; auto).
  - intros [Hn Hp].
    destruct (Is_Tier_Top row); [cbn; discriminate|]. rewrite Hn. cbn [orb].
    assert (E : cell_gtb (Value_Proposition row) (Some 1.0) = false).
    { unfold cell_gtb, cell_ltb in *.
      destruct (Value_Proposition row) as [v|]; [|reflexivity].
      apply Qltb_lt in Hp. apply Qltb_ge. lra. }
    rewrite E. discriminate.
Qed.

End BiddingStrategy.

Section GuideOfMasterTable.

Import update_combined_data.
Local Open Scope string_scope.




End GuideOfMasterTable.

(* ===================================================================== *)
(** * clean_processed_data.py: gender, primary position, stored prices *)
(* ===================================================================== *)

Section CleaningSteps.

Import clean_processed_data.
Import clean_steps.
Local Open Scope string_scope.

(** X12: the standardised gender is always 'Man', 'Non-Cis' or 'Unknown';
    every value other than the three keys of the mapping, and a missing one,
    becomes 'Unknown'; standardising a standardised value changes nothing. *)
Theorem standardize_gender_range_and_idempotent (gender : option string) :
  In (standardize_gender gender) ["Man"; "Non-Cis"; "Unknown"]
  /\ standardize_gender (Some (standardize_gender gender))
     = standardize_gender gender
  /\ (forall g, gender = Some g ->
      g <> "Man" -> g <> "Non-Cis Man" -> g <> "Non-Cis" ->
      standardize_gender gender = "Unknown")
  /\ standardize_gender None = "Unknown".
Proof.
  assert (Hcases : forall g,
            (g = "Man" /\ standardize_gender (Some g) = "Man")
            \/ (g = "Non-Cis Man" /\ standardize_gender (Some g) = "Non-Cis")
            \/ (g = "Non-Cis" /\ standardize_gender (Some g) = "Non-Cis")
            \/ (g <> "Man" /\ g <> "Non-Cis Man" /\ g <> "Non-Cis"
                /\ standardize_gender (Some g) = "Unknown")).
  { intros g. unfold standardize_gender, gender_mapping. cbn [dict_get].
    destruct (String.eqb_spec "Man" g) as [<-|H1]; [now left|].
    destruct (String.eqb_spec "Non-Cis Man" g) as [<-|H2]; [now right; left|].
    destruct (String.eqb_spec "Non-Cis" g) as [<-|H3]; [now right; right; left|].
    right; right; right.
    split; [congruence|]. split; [congruence|]. split; [congruence|].
    reflexivity. }
  destruct gender as [g|].
  - split; [|split; [|split; [|reflexivity]]].
    + destruct (Hcases g) as [[_ E]|[[_ E]|[[_ E]|(_ & _ & _ & E)]]];
        rewrite E; cbn; tauto.
    + destruct (Hcases g) as [[_ E]|[[_ E]|[[_ E]|(_ & _ & _ & E)]]];
        rewrite E; reflexivity.
    + intros g' [= <-] H1 H2 H3.
      destruct (Hcases g) as [[E _]|[[E _]|[[E _]|(_ & _ & _ & E)]]];
        congruence.
  - split; [cbn; tauto|]. split; [reflexivity|]. split; [discriminate|].
    reflexivity.
Qed.

Lemma split_comma_nonempty (s : string) : split_comma s <> [].
Proof.
  destruct s as [|c s]; cbn; [discriminate|].
  destruct (Ascii.eqb c ","); [discriminate|].
  destruct (split_comma s); discriminate.
Qed.

(** The head of a sorted list is an element of least key. *)
Lemma sorted_by_key_head {A : Type} (key : A -> nat) (l : list A) :
  l <> [] ->
  exists p rest,
    sorted_by_key key l = p :: rest
    /\ In p l /\ forall q, In q l -> (key p <= key q)%nat.
Proof.
  induction l as [|x l IH]; intros Hne; [congruence|].
  destruct l as [|y l].
  - exists x, []. cbn. repeat split; [now left|].
    intros q [<-|[]]. lia.
  - destruct IH as (p & rest & Hs & Hin & Hmin); [discriminate|].
    change (sorted_by_key key (x :: y :: l))
      with (insert_by_key key x (sorted_by_key key (y :: l))).
    rewrite Hs. cbn [insert_by_key].
    destruct (key x <=? key p)%nat eqn:E.
    + apply Nat.leb_le in E. exists x, (p :: rest).
      repeat split; [now left|].
      intros q [<-|Hq]; [lia|]. specialize (Hmin q Hq). lia.
    + apply Nat.leb_gt in E. exists p, (insert_by_key key x rest).
      repeat split; [now right|].
      intros q [<-|Hq]; [lia|]. now apply Hmin.
Qed.

Lemma priority_of_Goalkeeper (p : string) :
  (priority_of p <= 1)%nat -> p = "Goalkeeper".
Proof.
  unfold priority_of, priority. cbn [dict_get].
  destruct (String.eqb_spec "Goalkeeper" p) as [<-|_]; [reflexivity|].
  destruct ("Defender" =? p); [lia|].
  destruct ("Midfielder" =? p); [lia|].
  destruct ("Attacker" =? p); lia.
Qed.

(** X13: for a position string other than 'Unknown' the primary position is
    one of the comma-separated, stripped positions and none of them has a
    higher priority (Goalkeeper, Defender, Midfielder, Attacker, then the
    rest); a goalkeeper among them is always the primary position. *)
Theorem get_primary_position_has_top_priority (pos_str : string) :
  pos_str <> "Unknown" ->
  let positions := map strip (split_comma pos_str) in
  In (get_primary_position pos_str) positions
  /\ (forall q, In q positions ->
      (priority_of (get_primary_position pos_str) <= priority_of q)%nat)
  /\ (In "Goalkeeper" positions -> get_primary_position pos_str = "Goalkeeper").
Proof.
  intros Hu positions. unfold get_primary_position.
  apply String.eqb_neq in Hu. rewrite Hu. fold positions.
  destruct (sorted_by_key_head priority_of positions)
    as (p & rest & Hs & Hin & Hmin).
  { unfold positions. intros E. apply map_eq_nil in E.
    now apply split_comma_nonempty in E. }
  rewrite Hs. split; [exact Hin|]. split; [exact Hmin|].
  intros Hg. apply priority_of_Goalkeeper. exact (Hmin _ Hg).
Qed.

Lemma get_primary_position_has_top_priority_witness :
  get_primary_position "Midfielder, Goalkeeper" = "Goalkeeper".
Proof.
  apply (get_primary_position_has_top_priority "Midfielder, Goalkeeper").
  - discriminate.
  - right. left. reflexivity.
Defined.

Lemma calculate_value_never_raises (row : Row) :
  exists v, calculate_value row = Ok v.
Proof.
  unfold calculate_value, cell_eqb, cell_truediv.
  destruct (Price row) as [p|]; [|now eexists].
  destruct (Qeq_bool p 0); now eexists.
Qed.

Lemma mapM_raises {A B : Type} (f : A -> res B) (e : exn) (l : list A) :
  (forall a, In a l -> (exists b, f a = Ok b) \/ f a = Raise e) ->
  (exists a, In a l /\ f a = Raise e) ->
  mapM f l = Raise e.
Proof.
  induction l as [|a l IH]; intros Hall (x & Hin & Hx); [contradiction|].
  cbn. destruct (Hall a (or_introl eq_refl)) as [[b Hb]|Ha].
  - rewrite Hb. cbn. rewrite IH; [reflexivity | |].
    + intros y Hy. apply Hall. now right.
    + destruct Hin as [<-|Hin]; [congruence|]. now exists x.
  - now rewrite Ha.
Qed.

Lemma steps_5_6_8_ok (df_clean : list Row) :
  (forall row, In row df_clean -> Price row <> None) ->
  steps_5_6_8 df_clean = Ok (map cleaned_row df_clean).
Proof.
  intros Hp. unfold steps_5_6_8.
  rewrite (mapM_ok _ (fun row : RowC =>
             mkRowV row (match calculate_value row with
                         | Ok v => v | Raise _ => None end))).
  - cbn [bind].
    rewrite (mapM_ok _ (fun row : RowV =>
               mkCleanRow (Tier row)
                 (match Price row with
                  | Some p => round_half_even p | None => 0%Z end)
                 (Price_Category row) (Value_Rating row))).
    + now rewrite !map_map.
    + intros row Hrow. rewrite !map_map in Hrow.
      apply in_map_iff in Hrow. destruct Hrow as (r & <- & Hr). cbn.
      specialize (Hp r Hr). destruct (Price r); [reflexivity|now elim Hp].
  - intros row _. destruct (calculate_value_never_raises row) as [v Hv].
    now rewrite Hv.
Qed.

(** X14: steps 5, 6 and 8 return one row per input row when every price is
    present, and raise [ValueError] (the cast of a missing price to int) when
    some price is missing; the value rating never makes them fail. *)
Theorem steps_5_6_8_fail_on_missing_price (df_clean : list Row) :
  (Forall (fun row => Price row <> None) df_clean ->
   exists out,
     steps_5_6_8 df_clean = Ok out /\ length out = length df_clean)
  /\ (Exists (fun row => Price row = None) df_clean ->
      steps_5_6_8 df_clean = Raise ValueError).
Proof.
  split.
  - intros Hp. rewrite Forall_forall in Hp. rewrite (steps_5_6_8_ok _ Hp).
    eexists. split; [reflexivity | apply length_map].
  - intros Hex. apply Exists_exists in Hex. destruct Hex as (r & Hr & Hnone).
    unfold steps_5_6_8.
    rewrite (mapM_ok _ (fun row : RowC =>
               mkRowV row (match calculate_value row with
                           | Ok v => v | Raise _ => None end))).
    + cbn [bind]. apply mapM_raises.
      * intros row _. cbn. destruct (Price row); [left; now eexists | now right].
      * rewrite !map_map. eexists. split.
        -- apply in_map_iff. exists r. split; [reflexivity | exact Hr].
        -- cbn. now rewrite Hnone.
    + intros row _. destruct (calculate_value_never_raises row) as [v Hv].
      now rewrite Hv.
Qed.

Lemma steps_5_6_8_fail_on_missing_price_witness :
  (exists out, steps_5_6_8 [mkRow 1 (Some 25); mkRow 3 (Some 0)] = Ok out
               /\ length out = 2%nat)
  /\ steps_5_6_8 [mkRow 1 (Some 25); mkRow 3 None] = Raise ValueError.
Proof.
  split.
  - apply (proj1 (steps_5_6_8_fail_on_missing_price
                    [mkRow 1 (Some 25); mkRow 3 (Some 0)])).
    repeat constructor; discriminate.
  - apply (proj2 (steps_5_6_8_fail_on_missing_price
                    [mkRow 1 (Some 25); mkRow 3 None])).
    right. left. reflexivity.
Defined.

(** X15: when every price is a whole number, as the script assumes, the rows
    stored by steps 5, 6 and 8 are consistent: the price category and the
    value rating of a stored row are those of its stored (integer) price. *)
Theorem stored_rows_consistent_on_whole_prices (df_clean : list Row) :
  Forall (fun row => exists z, Price row = Some (inject_Z z)) df_clean ->
  exists out,
    steps_5_6_8 df_clean = Ok out
    /\ Forall
         (fun c =>
            c_Price_Category c = get_price_category (Some (inject_Z (c_Price c)))
            /\ calculate_value (mkRow (c_Tier c) (Some (inject_Z (c_Price c))))
               = Ok (c_Value_Rating c))
         out.
Proof.
  intros Hw. rewrite Forall_forall in Hw.
  rewrite steps_5_6_8_ok.
  - eexists. split; [reflexivity|].
    apply Forall_forall. intros c Hc. apply in_map_iff in Hc.
    destruct Hc as (r & <- & Hr). destruct (Hw r Hr) as [z Hz].
    unfold cleaned_row. cbn. rewrite Hz, round_half_even_inject_Z.
    split; [reflexivity|].
    destruct r as [tier price]. cbn in *. subst price.
    destruct (calculate_value_never_raises (mkRow tier (Some (inject_Z z))))
      as [v Hv].
    now rewrite Hv.
  - intros r Hr. destruct (Hw r Hr) as [z Hz]. rewrite Hz. discriminate.
Qed.

Lemma stored_rows_consistent_on_whole_prices_witness :
  exists out,
    steps_5_6_8 [mkRow 1 (Some 25); mkRow 3 (Some 0)] = Ok out
    /\ Forall
         (fun c =>
            c_Price_Category c = get_price_category (Some (inject_Z (c_Price c)))
            /\ calculate_value (mkRow (c_Tier c) (Some (inject_Z (c_Price c))))
               = Ok (c_Value_Rating c))
         out.
Proof.
  apply (stored_rows_consistent_on_whole_prices
           [mkRow 1 (Some 25); mkRow 3 (Some 0)]).
  constructor; [now exists 25%Z|]. constructor; [now exists 0%Z|]. constructor.
Defined.

(** X16: a positive price of at most one half is stored as 0, while its
    stored category is 'Low' (not 'N/A') and, for a tier in 1..4, its stored
    value rating is at least 20 (not 0): the category and the rating are
    computed before the price is rounded. *)
Theorem fractional_price_stored_as_zero (tier : Z) (p : Q) :
  (1 <= tier <= 4)%Z -> 0 < p -> p <= 1 # 2 ->
  exists v,
    steps_5_6_8 [mkRow tier (Some p)] = Ok [mkCleanRow tier 0 "Low" (Some v)]
    /\ 20 <= v.
Proof.
  intros Ht Hp Hh.
  rewrite steps_5_6_8_ok by (intros r [<-|[]]; discriminate).
  cbn [map]. unfold cleaned_row. cbn [Tier Price].
  assert (Hround : round_half_even p = 0%Z).
  { apply Z.le_antisymm.
    - change 0%Z with (round_half_even (1 # 2)).
      now apply round_half_even_mono.
    - apply round_half_even_above. change (inject_Z 0) with 0. lra. }
  assert (Hcat : get_price_category (Some p) = "Low").
  { unfold get_price_category, cell_eqb, cell_ltb.
    assert (E0 : Qeq_bool p 0 = false) by (apply Qeq_bool_false_neq; lra).
    assert (E1 : Qltb p 10 = true) by (apply Qltb_lt; lra).
    now rewrite E0, E1. }
  rewrite Hround, Hcat.
  unfold calculate_value, cell_eqb, cell_truediv. cbn [Tier Price].
  assert (E0 : Qeq_bool p 0 = false) by (apply Qeq_bool_false_neq; lra).
  rewrite E0. cbn [bind option_map cell_round_n].
  eexists. split; [reflexivity|].
  apply (Qle_trans _ (py_round_n 20 2)); [discriminate|].
  apply py_round_n_mono.
  apply Qle_shift_div_l; [exact Hp|].
  assert (Hz : 10 <= inject_Z ((5 - tier) * 10)).
  { change 10 with (inject_Z 10). rewrite <- Zle_Qle. lia. }
  nra.
Qed.

Lemma fractional_price_stored_as_zero_witness :
  exists v,
    steps_5_6_8 [mkRow 2 (Some 0.4)] = Ok [mkCleanRow 2 0 "Low" (Some v)]
    /\ 20 <= v.
Proof.
  apply (fractional_price_stored_as_zero 2 0.4); [lia | reflexivity | discriminate].
Defined.

End CleaningSteps.

(* ===================================================================== *)
(** * combine_apl_data.py: ids, edition counts, position consistency *)
(* ===================================================================== *)

Section CombineSteps.

Import combine_steps.
Local Open Scope string_scope.

Lemma fold_Z_max_ge (l : list Z) (x : Z) :
  (x <= fold_left Z.max l x)%Z
  /\ forall y, In y l -> (y <= fold_left Z.max l x)%Z.
Proof.
  revert x. induction l as [|a l IH]; intros x.
  - cbn [fold_left]. split; [lia | contradiction].
  - cbn [fold_left]. destruct (IH (Z.max x a)) as [H1 H2]. split; [lia|].
    intros y [<-|Hy]; [lia | now apply H2].
Qed.

(** X17: when the APL 6/7 table is not empty, its ids are distinct, and the
    APL 8 ids are distinct and at least 1, every row of the combined table
    has an id and the ids are pairwise distinct. *)
Theorem combined_ids_distinct (apl67_df apl8_df : list InRow) :
  apl67_df <> [] ->
  NoDup (map in_Player_ID apl67_df) ->
  NoDup (map in_Player_ID apl8_df) ->
  Forall (fun r => (1 <= in_Player_ID r)%Z) apl8_df ->
  exists ids,
    map Player_ID (concat_with_shifted_ids apl67_df apl8_df) = map Some ids
    /\ NoDup ids.
Proof.
  intros Hne H67 H8 Hpos. unfold concat_with_shifted_ids.
  destruct apl67_df as [|r0 rest] eqn:E67; [congruence|]. rewrite <- E67 in *.
  assert (Hmax : exists m, max_id (map in_Player_ID apl67_df) = Some m
                           /\ forall y, In y (map in_Player_ID apl67_df) -> (y <= m)%Z).
  { rewrite E67. cbn [map max_id]. eexists. split; [reflexivity|].
    destruct (fold_Z_max_ge (map in_Player_ID rest) (in_Player_ID r0)) as [H1 H2].
    intros y [<-|Hy]; [exact H1 | now apply H2]. }
  destruct Hmax as (m & Em & Hm). rewrite Em.
  exists (map in_Player_ID apl67_df
          ++ map (fun i => (i + m)%Z) (map in_Player_ID apl8_df))%list.
  split.
  - rewrite !map_app, !map_map. reflexivity.
  - apply NoDup_app.
    + exact H67.
    + apply Finite.Injective_map_NoDup_in; [|exact H8].
      intros a b _ _ Hab. lia.
    + intros a Ha Hb. apply in_map_iff in Hb. destruct Hb as (i & <- & Hi).
      apply in_map_iff in Hi. destruct Hi as (r & <- & Hr).
      rewrite Forall_forall in Hpos. specialize (Hpos r Hr).
      specialize (Hm _ Ha). lia.
Qed.

Lemma combined_ids_distinct_witness :
  exists ids,
    map Player_ID
      (concat_with_shifted_ids
         [mkInRow 1 "A" None None "APL 6.0"; mkInRow 2 "B" None None "APL 7.0"]
         [mkInRow 1 "A" None None "APL 8.0"; mkInRow 2 "C" None None "APL 8.0"])
    = map Some ids
    /\ NoDup ids.
Proof.
  apply combined_ids_distinct.
  - discriminate.
  - repeat constructor; cbn; intuition discriminate.
  - repeat constructor; cbn; intuition discriminate.
  - repeat constructor; cbn; lia.
Defined.

Lemma count_keys_distinct (df : list Row) :
  NoDup (map c_Player_Name (edition_count df)).
Proof.
  unfold edition_count. rewrite map_map.
  apply (groupby_keys_distinct string_dec Player_Name df).
Qed.

Lemma step8_rows (combined_df : list Row) :
  step8 combined_df
  = map (fun r =>
           mkRowE r (Edition r =? "APL 8.0")
             (if in_dec string_dec (Player_Name r) (map Player_Name combined_df)
              then Some (Z.of_nat (length (editions_of_player (Player_Name r)
                                                              combined_df)))
              else None))
        combined_df.
Proof.
  unfold step8.
  rewrite (merge_left_distinct_keys string_dec _ _ _ _ _
             (count_keys_distinct combined_df)).
  apply map_ext. intros r. unfold join_edition_count. f_equal.
  unfold edition_count. rewrite find_map. cbn [c_Player_Name].
  destruct (in_dec string_dec (Player_Name r) (map Player_Name combined_df))
    as [Hin|Hout].
  - rewrite (find_group string_dec Player_Name combined_df _ Hin). reflexivity.
  - destruct (find _ (groupby string_dec Player_Name combined_df))
      as [g|] eqn:Eg; [|reflexivity].
    exfalso. apply find_some in Eg. destruct Eg as [Hg Hk].
    apply eqb_of_true in Hk. apply Hout. rewrite Hk.
    apply (nodup_In string_dec). rewrite <- (groupby_keys string_dec).
    now apply in_map.
Qed.

Lemma nodup_length_gt_1 (l : list string) (e : string) :
  In e l ->
  ((1 < length (nodup string_dec l))%nat <-> exists x, In x l /\ x <> e).
Proof.
  intros He. split.
  - intros Hlen.
    destruct (Exists_dec (fun x => x <> e) l) as [Hex|Hno].
    { intros x. destruct (string_dec x e); [right; tauto | now left]. }
    + apply Exists_exists in Hex. exact Hex.
    + exfalso.
      assert (Hincl : incl (nodup string_dec l) [e]).
      { intros x Hx. apply nodup_In in Hx. left.
        destruct (string_dec x e) as [->|Hn]; [reflexivity|].
        exfalso. apply Hno. apply Exists_exists. now exists x. }
      pose proof (NoDup_incl_length (NoDup_nodup string_dec l) Hincl) as H.
      cbn in H. lia.
  - intros (x & Hx & Hne).
    assert (Hincl : incl [x; e] (nodup string_dec l)).
    { intros y [<-|[<-|[]]]; now apply nodup_In. }
    assert (Hnd : NoDup [x; e]).
    { constructor; [intros [H|[]]; congruence|]. constructor; [tauto|constructor]. }
    pose proof (NoDup_incl_length Hnd Hincl) as H. cbn in H. lia.
Qed.

(** X18: step 8 keeps the rows of the combined table as they are, flags the
    APL 8.0 rows, and gives every row an edition count that is the number of
    distinct editions of its player, is at least 1, and exceeds 1 exactly
    when the player also has a row of another edition. *)
Theorem edition_count_counts_distinct_editions (combined_df : list Row) :
  map rowE_prev (step8 combined_df) = combined_df
  /\ Forall
       (fun r : RowE =>
          (In_Latest_Edition r = true <-> Edition r = "APL 8.0")
          /\ exists n,
               Edition_Count r = Some n
               /\ n = Z.of_nat (length (editions_of_player (Player_Name r)
                                                           combined_df))
               /\ (1 <= n)%Z
               /\ ((1 < n)%Z <->
                   exists r' : Row,
                     In r' combined_df
                     /\ Player_Name r' = Player_Name r
                     /\ Edition r' <> Edition r))
       (step8 combined_df).
Proof.
  rewrite step8_rows. split.
  - rewrite map_map. cbn. apply map_id.
  - apply Forall_forall. intros row Hrow. apply in_map_iff in Hrow.
    destruct Hrow as (r & <- & Hr). cbn.
    split; [apply String.eqb_eq|].
    destruct (in_dec string_dec (Player_Name r) (map Player_Name combined_df))
      as [_|Hout]; [|exfalso; apply Hout; now apply in_map].
    eexists. split; [reflexivity|]. split; [reflexivity|].
    set (group := filter (fun r0 => eqb_of string_dec (Player_Name r0)
                                          (Player_Name r)) combined_df).
    assert (Hin : In (Edition r) (map Edition group)).
    { apply in_map. apply filter_In. split; [exact Hr | apply eqb_of_refl]. }
    assert (Hpos : (1 <= length (editions_of_player (Player_Name r) combined_df))%nat).
    { unfold editions_of_player. fold group.
      apply (nodup_In string_dec) in Hin.
      destruct (nodup string_dec (map Edition group)); [contradiction|cbn; lia]. }
    split; [lia|].
    unfold editions_of_player. fold group.
    split.
    + intros Hn.
      assert (H : (1 < length (nodup string_dec (map Edition group)))%nat) by lia.
      apply (nodup_length_gt_1 _ _ Hin) in H. destruct H as (x & Hx & Hne).
      apply in_map_iff in Hx. destruct Hx as (r' & <- & Hr').
      apply filter_In in Hr'. destruct Hr' as [Hr' Hk].
      apply eqb_of_true in Hk. now exists r'.
    + intros (r' & Hr' & Hname & Hed).
      assert (H : (1 < length (nodup string_dec (map Edition group)))%nat).
      { apply (nodup_length_gt_1 _ _ Hin). exists (Edition r'). split; [|exact Hed].
        apply in_map. apply filter_In. split; [exact Hr'|].
        now apply eqb_of_true. }
      lia.
Qed.

Lemma only_fills_refl (r : RowE) : only_fills_unknown_position r r.
Proof. unfold only_fills_unknown_position. repeat split. Qed.

Lemma only_fills_trans (r r' r'' : RowE) :
  only_fills_unknown_position r r' -> only_fills_unknown_position r' r'' ->
  only_fills_unknown_position r r''.
Proof.
  intros (A1 & A2 & A3 & A4 & A5 & A6 & A7) (B1 & B2 & B3 & B4 & B5 & B6 & B7).
  unfold only_fills_unknown_position. repeat split; try congruence.
  - intros E. rewrite <- (A6 E). apply B6. now rewrite (A6 E).
  - intros E. rewrite <- (A7 E). apply B7. now rewrite (A7 E).
Qed.

Lemma is_older_unknown_true (player : string) (r : RowE) :
  is_older_unknown player r = true ->
  Player_Name r = player /\ Edition r <> "APL 8.0"
  /\ Position r = Some "Unknown".
Proof.
  unfold is_older_unknown, is_unknown. intros H.
  apply Bool.andb_true_iff in H. destruct H as [H Hu].
  apply Bool.andb_true_iff in H. destruct H as [Hn He].
  apply String.eqb_eq in Hn. apply Bool.negb_true_iff, String.eqb_neq in He.
  destruct (Position r) as [s|]; [|discriminate].
  apply String.eqb_eq in Hu. now subst.
Qed.

Lemma only_fills_rewrite (player : string) (position primary : option string)
  (r : RowE) :
  only_fills_unknown_position r
    (if is_older_unknown player r then set_positions position primary r else r).
Proof.
  destruct (is_older_unknown player r) eqn:E; [|apply only_fills_refl].
  apply is_older_unknown_true in E. destruct E as (_ & He & Hu).
  unfold only_fills_unknown_position. cbn. repeat split; intros H; congruence.
Qed.

Lemma Forall2_refl_of {A : Type} (R : A -> A -> Prop) (l : list A) :
  (forall a, R a a) -> Forall2 R l l.
Proof. intros H. induction l; constructor; auto. Qed.

Lemma Forall2_map_r_of {A : Type} (R : A -> A -> Prop) (f : A -> A) (l : list A) :
  (forall a, In a l -> R a (f a)) -> Forall2 R l (map f l).
Proof.
  induction l as [|a l IH]; intros H; constructor.
  - apply H. now left.
  - apply IH. intros x Hx. apply H. now right.
Qed.

Lemma Forall2_compose {A : Type} (R S T : A -> A -> Prop) (l l' l'' : list A) :
  (forall a b c, R a b -> S b c -> T a c) ->
  Forall2 R l l' -> Forall2 S l' l'' -> Forall2 T l l''.
Proof.
  intros H H1. revert l''. induction H1 as [|a b l l' Hab _ IH]; intros l'' H2.
  - inversion H2. constructor.
  - inversion H2 as [|? c ? l3 Hbc H3]; subst. constructor; [eauto | auto].
Qed.

(** One turn of the loop, whatever the player. *)
Lemma update_player_only_fills (df : list RowE) (player : string) :
  Forall2 only_fills_unknown_position df (update_player df player).
Proof.
  unfold update_player.
  destruct (filter _ df) as [|recent recents];
    [apply Forall2_refl_of, only_fills_refl|].
  destruct (Position recent) as [position|];
    [|apply Forall2_refl_of, only_fills_refl].
  apply Forall2_map_r_of. intros r _. apply only_fills_rewrite.
Qed.

Lemma fold_update_player_only_fills (players : list string) (df : list RowE) :
  Forall2 only_fills_unknown_position df (fold_left update_player players df).
Proof.
  revert df. induction players as [|p players IH]; intros df.
  - apply Forall2_refl_of, only_fills_refl.
  - cbn [fold_left].
    apply (Forall2_compose _ _ _ _ _ _ only_fills_trans
             (update_player_only_fills df p) (IH _)).
Qed.

(** X19: step 9 keeps the number and order of the rows and, in each row,
    every column other than the two position columns; it leaves every APL
    8.0 row and every row whose position is not 'Unknown' exactly as it
    was. *)
Theorem step9_only_fills_unknown_positions (combined_df : list RowE) :
  Forall2 only_fills_unknown_position combined_df (step9 combined_df).
Proof. apply fold_update_player_only_fills. Qed.

Lemma existsb_eqb_In (x : string) (seen : list string) :
  existsb (String.eqb x) seen = true <-> In x seen.
Proof.
  rewrite existsb_exists. split.
  - intros (y & Hy & E). apply String.eqb_eq in E. now subst.
  - intros H. exists x. split; [exact H | apply String.eqb_refl].
Qed.

Lemma unique_from_In (seen l : list string) (x : string) :
  In x (unique_from seen l) <-> In x l /\ ~ In x seen.
Proof.
  revert seen. induction l as [|y l IH]; intros seen; cbn.
  - tauto.
  - destruct (existsb (String.eqb y) seen) eqn:E.
    + apply existsb_eqb_In in E. rewrite IH. split.
      * intros [H1 H2]. tauto.
      * intros [[<-|H1] H2]; [contradiction | tauto].
    + assert (Hy : ~ In y seen).
      { intros H. apply existsb_eqb_In in H. congruence. }
      cbn. rewrite IH. cbn. split.
      * intros [<-|[H1 H2]]; [tauto|]. split; [tauto|]. tauto.
      * intros [[<-|H1] H2]; [now left|].
        destruct (string_dec y x) as [->|Hne]; [now left|]. right. tauto.
Qed.

Lemma unique_from_NoDup (seen l : list string) : NoDup (unique_from seen l).
Proof.
  revert seen. induction l as [|y l IH]; intros seen; cbn; [constructor|].
  destruct (existsb (String.eqb y) seen); [apply IH|].
  constructor; [|apply IH].
  rewrite unique_from_In. cbn. tauto.
Qed.

Lemma untouched_trans (player : string) (r r' r'' : RowE) :
  untouched_for player r r' -> untouched_for player r' r'' ->
  untouched_for player r r''.
Proof.
  intros [A1 A2] [B1 B2]. split; [now apply (only_fills_trans r r' r'')|].
  intros E. rewrite <- (A2 E). apply B2. now rewrite (A2 E).
Qed.

Lemma is_older_unknown_other (q player : string) (r : RowE) :
  q <> player -> Player_Name r = player -> is_older_unknown q r = false.
Proof.
  intros Hq Hn. unfold is_older_unknown.
  assert (E : (Player_Name r =? q) = false) by (apply String.eqb_neq; congruence).
  now rewrite E.
Qed.

(** A turn for another player leaves the rows of [player] as they are. *)
Lemma update_other_player (df : list RowE) (q player : string) :
  q <> player -> Forall2 (untouched_for player) df (update_player df q).
Proof.
  intros Hq. unfold update_player.
  assert (Hrefl : forall a, untouched_for player a a)
    by (intros a; split; [apply only_fills_refl | reflexivity]).
  destruct (filter _ df) as [|recent recents]; [now apply Forall2_refl_of|].
  destruct (Position recent) as [position|]; [|now apply Forall2_refl_of].
  apply Forall2_map_r_of. intros r _. split; [apply only_fills_rewrite|].
  intros Hn. now rewrite (is_older_unknown_other q player r Hq Hn).
Qed.

Lemma fold_other_players (players : list string) (player : string)
  (df : list RowE) :
  ~ In player players ->
  Forall2 (untouched_for player) df (fold_left update_player players df).
Proof.
  revert df. induction players as [|q players IH]; intros df Hnot.
  - apply Forall2_refl_of. intros a. split; [apply only_fills_refl | reflexivity].
  - cbn [fold_left].
    apply (Forall2_compose _ _ _ _ _ _ (untouched_trans player)
             (update_other_player df q player
                (fun E => Hnot (or_introl E)))).
    apply IH. intros H. apply Hnot. now right.
Qed.

(** The recent rows of [player] are the same while its rows are untouched. *)
Lemma recent_data_untouched (player : string) (df df' : list RowE) :
  Forall2 (untouched_for player) df df' ->
  filter (is_recent_of player) df' = filter (is_recent_of player) df.
Proof.
  induction 1 as [|r r' l l' [Hf Hu] _ IH]; [reflexivity|].
  cbn [filter]. rewrite IH.
  destruct Hf as (_ & Hn & He & _).
  unfold is_recent_of. rewrite Hn, He.
  destruct (Player_Name r =? player) eqn:E; [|reflexivity].
  apply String.eqb_eq in E. now rewrite (Hu E).
Qed.

Lemma Forall2_map_r_rel {A : Type} (R T : A -> A -> Prop) (f : A -> A)
  (l l' : list A) :
  (forall a b, R a b -> T a (f b)) -> Forall2 R l l' -> Forall2 T l (map f l').
Proof.
  intros H. induction 1; cbn; constructor; auto.
Qed.

(** The turn of [player] fills the 'Unknown' positions of its older rows. *)
Lemma update_this_player (player position : string) (recent : RowE)
  (df df' : list RowE) :
  Forall2 (untouched_for player) df df' ->
  hd_error (filter (is_recent_of player) df) = Some recent ->
  Position recent = Some position ->
  Forall2 (filled_for player position (Primary_Position recent)) df
          (update_player df' player).
Proof.
  intros Hu Hrecent Hpos. unfold update_player.
  change (fun r : RowE => (Player_Name r =? player) && (Edition r =? "APL 8.0"))
    with (is_recent_of player).
  rewrite (recent_data_untouched player df df' Hu).
  destruct (filter (is_recent_of player) df) as [|x xs]; [discriminate|].
  cbn in Hrecent. injection Hrecent as ->. rewrite Hpos.
  apply (Forall2_map_r_rel (untouched_for player)); [|exact Hu].
  intros a b [Hf Hsame]. split.
  - apply (only_fills_trans a b); [exact Hf | apply only_fills_rewrite].
  - intros Hn. now rewrite (Hsame Hn).
Qed.

Lemma filled_then_untouched (player position : string)
  (primary : option string) (r r' r'' : RowE) :
  filled_for player position primary r r' -> untouched_for player r' r'' ->
  filled_for player position primary r r''.
Proof.
  intros [A1 A2] [B1 B2]. split; [now apply (only_fills_trans r r' r'')|].
  intros E. rewrite <- (A2 E). apply B2.
  destruct A1 as (_ & Hn & _). congruence.
Qed.

(** X20: when a player has a row with an edition count above 1 and the first
    APL 8.0 row of the player has a position, step 9 gives that position and
    its primary position to every row of the player from an older edition
    whose position was 'Unknown'. *)
Theorem step9_fills_older_unknown_positions (combined_df : list RowE)
  (player position : string) (recent : RowE) :
  (exists r0, In r0 combined_df /\ Player_Name r0 = player
              /\ count_gt_1 (Edition_Count r0) = true) ->
  hd_error (filter (is_recent_of player) combined_df) = Some recent ->
  Position recent = Some position ->
  Forall2
    (fun r r' : RowE =>
       Player_Name r = player -> Edition r <> "APL 8.0" ->
       Position r = Some "Unknown" ->
       Position r' = Some position
       /\ Primary_Position r' = Primary_Position recent)
    combined_df (step9 combined_df).
Proof.
  intros (r0 & Hr0 & Hname & Hcount) Hrecent Hpos.
  assert (Hin : In player (recurring_players combined_df)).
  { unfold recurring_players, unique. apply unique_from_In. split; [|tauto].
    apply in_map_iff. exists r0. split; [exact Hname|].
    apply filter_In. now split. }
  pose proof (unique_from_NoDup []
                (map (fun r : RowE => Player_Name r)
                   (filter (fun r : RowE => count_gt_1 (Edition_Count r))
                      combined_df))) as Hnd.
  fold (unique (map (fun r : RowE => Player_Name r)
                  (filter (fun r : RowE => count_gt_1 (Edition_Count r))
                     combined_df))) in Hnd.
  fold (recurring_players combined_df) in Hnd.
  unfold step9.
  destruct (in_split _ _ Hin) as (before & after & Hsplit).
  rewrite Hsplit in Hnd |- *.
  apply NoDup_remove_2 in Hnd.
  assert (Hb : ~ In player before) by (intros H; apply Hnd, in_or_app; now left).
  assert (Ha : ~ In player after) by (intros H; apply Hnd, in_or_app; now right).
  rewrite fold_left_app. cbn [fold_left].
  pose proof (fold_other_players before player combined_df Hb) as H1.
  pose proof (update_this_player player position recent combined_df _
                H1 Hrecent Hpos) as H2.
  pose proof (fold_other_players after player
                (update_player (fold_left update_player before combined_df) player)
                Ha) as H3.
  pose proof (Forall2_compose _ _ _ _ _ _
                (filled_then_untouched player position (Primary_Position recent))
                H2 H3) as H4.
  revert H4. apply Forall2_impl.
  intros r r' [_ Hfill] Hn He Hu.
  rewrite (Hfill Hn).
  assert (E : is_older_unknown player r = true).
  { unfold is_older_unknown, is_unknown. rewrite Hu.
    apply String.eqb_eq in Hn. apply String.eqb_neq in He.
    now rewrite Hn, He. }
  rewrite E. cbn. split; reflexivity.
Qed.

Lemma step9_fills_older_unknown_positions_witness :
  Forall2
    (fun r r' : RowE =>
       Player_Name r = "Player A" -> Edition r <> "APL 8.0" ->
       Position r = Some "Unknown" ->
       Position r' = Some "Defender"
       /\ Primary_Position r' = Some "Defender")
    two_edition_table (step9 two_edition_table).
Proof.
  apply (step9_fills_older_unknown_positions two_edition_table "Player A"
           "Defender"
           (mkRowE (mkRow (Some 3%Z) "Player A" (Some "Defender")
                          (Some "Defender") "APL 8.0") true (Some 2%Z))).
  - eexists. split; [left; reflexivity|]. split; reflexivity.
  - reflexivity.
  - reflexivity.
Defined.

End CombineSteps.

(* ===================================================================== *)
(** * process_apl_data.py: cleaning the positions field *)
(* ===================================================================== *)

Section CleanPositions.

Import process_apl_data.

Lemma remove_char_filter (c : ascii) (s : string) :
  list_ascii_of_string (remove_char c s)
  = filter (fun a => negb (Ascii.eqb a c)) (list_ascii_of_string s).
Proof.
  induction s as [|a s IH]; [reflexivity|].
  cbn. destruct (Ascii.eqb a c); cbn; [exact IH | now rewrite IH].
Qed.

Lemma filter_idempotent {A : Type} (p : A -> bool) (l : list A) :
  filter p (filter p l) = filter p l.
Proof.
  induction l as [|a l IH]; [reflexivity|].
  cbn. destruct (p a) eqn:E; cbn; [rewrite E; now f_equal | exact IH].
Qed.

Lemma clean_positions_filter (s : string) :
  exists s',
    clean_positions (Some s) = Some s'
    /\ list_ascii_of_string s'
       = filter (fun a => negb (is_bracket_or_quote a)) (list_ascii_of_string s).
Proof.
  eexists. split; [reflexivity|].
  rewrite !remove_char_filter, !filter_filter_andb.
  apply filter_ext. intros a. unfold is_bracket_or_quote.
  destruct (Ascii.eqb a "["), (Ascii.eqb a "]"), (Ascii.eqb a "'"); reflexivity.
Qed.

(** X21: on a string, [clean_positions] deletes exactly the characters
    '[', ']' and the single quote and keeps all others in order, so cleaning
    a cleaned string changes nothing; a missing value stays missing. *)
Theorem clean_positions_deletes_brackets_and_quotes (s : string) :
  clean_positions None = None
  /\ exists s',
       clean_positions (Some s) = Some s'
       /\ list_ascii_of_string s'
          = filter (fun a => negb (is_bracket_or_quote a))
                   (list_ascii_of_string s)
       /\ clean_positions (Some s') = Some s'.
Proof.
  split; [reflexivity|].
  destruct (clean_positions_filter s) as (s' & Hs' & Hl).
  exists s'. split; [exact Hs'|]. split; [exact Hl|].
  destruct (clean_positions_filter s') as (s'' & Hs'' & Hl').
  rewrite Hs''. f_equal.
  rewrite <- (string_of_list_ascii_of_string s'').
  rewrite <- (string_of_list_ascii_of_string s').
  f_equal. now rewrite Hl', Hl, filter_idempotent.
Qed.

End CleanPositions.

(* ===================================================================== *)
(** * waterfall_dashboard.py: value class and bid slider *)
(* ===================================================================== *)

Section DashboardBidding.

Import dashboard_bidding.
Local Open Scope string_scope.

Lemma cell_geb_ge (c : cell) (q : Q) :
  cell_geb c (Some q) = true <-> exists v, c = Some v /\ q <= v.
Proof.
  unfold cell_geb, cell_leb. destruct c as [v|].
  - rewrite Qle_bool_iff. split.
    + intros H. now exists v.
    + intros (w & [= <-] & H). exact H.
  - split; [discriminate | intros (w & [=] & _)].
Qed.

Lemma cell_gtb_geb (c : cell) (a b : Q) :
  b <= a -> cell_gtb c (Some a) = true -> cell_geb c (Some b) = true.
Proof.
  intros Hab H. apply cell_gtb_gt in H. destruct H as (v & -> & Hv).
  apply cell_geb_ge. exists v. split; [reflexivity | lra].
Qed.

Lemma cell_geb_gtb (c : cell) (a b : Q) :
  b < a -> cell_geb c (Some a) = true -> cell_gtb c (Some b) = true.
Proof.
  intros Hab H. apply cell_geb_ge in H. destruct H as (v & -> & Hv).
  apply cell_gtb_gt. exists v. split; [reflexivity | lra].
Qed.

(** X22: the value class of the dashboard and the auction priority of the
    guide agree on one score: an excellent-value player has priority High,
    a Medium player is fair-value or good-value, and a poor-value player who
    is not a tier top has priority Low. *)
Theorem value_class_agrees_with_priority (top : bool) (score : cell) :
  let priority :=
    generate_auction_guide.Auction_Priority
      (generate_auction_guide.mkRow top score) in
  (get_value_class score = "excellent-value" -> priority = "High")
  /\ (priority = "Medium" ->
      get_value_class score = "fair-value"
      \/ get_value_class score = "good-value")
  /\ (get_value_class score = "poor-value" -> top = false -> priority = "Low").
Proof.
  cbv zeta. unfold generate_auction_guide.Auction_Priority, get_value_class.
  cbn [generate_auction_guide.Is_Tier_Top generate_auction_guide.Value_Proposition].
  destruct (cell_geb score (Some 2.0)) eqn:E2.
  { rewrite (cell_geb_gtb score 2.0 1.5 eq_refl E2), Bool.orb_true_r.
    repeat split; discriminate. }
  destruct (cell_gtb score (Some 1.5)) eqn:G15.
  { rewrite (cell_gtb_geb score 1.5 1.5 (Qle_refl _) G15), Bool.orb_true_r.
    repeat split; discriminate. }
  destruct (cell_gtb score (Some 1.0)) eqn:G10.
  { rewrite (cell_gtb_geb score 1.0 1.0 (Qle_refl _) G10).
    destruct (cell_geb score (Some 1.5)), top; cbn;
      repeat split; try discriminate; tauto. }
  destruct (cell_geb score (Some 1.5)) eqn:E15.
  { rewrite (cell_geb_gtb score 1.5 1.0 eq_refl E15) in G10. discriminate. }
  destruct (cell_geb score (Some 1.0)), top; cbn;
    repeat split; try discriminate; tauto.
Qed.

Lemma or_default_cases (x : option Q) (d : Q) :
  or_default x d = d \/ (exists q, x = Some q /\ ~ q == 0 /\ or_default x d = q).
Proof.
  unfold or_default. destruct x as [q|]; [|now left].
  destruct (Qeq_bool q 0) eqn:E; [now left|].
  right. exists q. apply Qeq_bool_false_neq in E. now repeat split.
Qed.

(** X23: the initial value of the bid slider never exceeds the slider's
    maximum, which is at most 100; a given non-zero budget caps the maximum,
    but a budget of 0 is treated like no budget and leaves it at 100; when
    the budget and the price the initial value is taken from are at least
    0.5, the initial value lies within the slider's bounds. *)
Theorem bid_slider_bounds (recommended_price max_bid current_budget : option Q) :
  let '(lo, hi, init) := bid_slider recommended_price max_bid current_budget in
  init <= hi /\ hi <= 100
  /\ (forall b, current_budget = Some b -> ~ b == 0 -> hi <= b)
  /\ (current_budget = None \/ current_budget = Some 0 -> hi == 100)
  /\ (0.5 <= or_default current_budget 100.0 ->
      0.5 <= or_default (or_else recommended_price max_bid) 0.5 ->
      lo <= init).
Proof.
  unfold bid_slider.
  set (hi := py_min 100.0 (or_default current_budget 100.0)).
  set (pick := or_default (or_else recommended_price max_bid) 0.5).
  assert (Hhi1 : hi <= 100.0) by apply py_min_le_l.
  assert (Hhi2 : hi <= or_default current_budget 100.0) by apply py_min_le_r.
  assert (Hhi3 : hi == 100.0 \/ hi = or_default current_budget 100.0).
  { unfold hi, py_min. destruct (Qltb _ _); [now right | now left]. }
  split.
  { destruct (Qltb hi pick) eqn:E; [apply Qle_refl | now apply Qltb_ge in E]. }
  split; [apply (Qle_trans _ _ _ Hhi1); discriminate|]. split.
  { intros b -> Hb. unfold or_default in Hhi2.
    apply Qeq_bool_false_neq in Hb. now rewrite Hb in Hhi2. }
  split.
  { intros [->| ->]; reflexivity. }
  intros Hb Hp. fold pick in Hp.
  destruct (Qltb hi pick) eqn:E; [|exact Hp].
  destruct Hhi3 as [H|H]; [rewrite H; discriminate|].
  rewrite H. exact Hb.
Qed.

End DashboardBidding.

(* ===================================================================== *)
(** * waterfall_dashboard.py: the team and the budget of a session *)
(* ===================================================================== *)

Section TeamSession.

Import team_session.
Local Open Scope string_scope.

Lemma name_in_In (name : string) (l : list string) :
  name_in name l = true <-> In name l.
Proof. apply existsb_eqb_In. Qed.

Lemma name_in_false (name : string) (l : list string) :
  name_in name l = false <-> ~ In name l.
Proof.
  rewrite <- name_in_In. destruct (name_in name l); split; congruence.
Qed.

Lemma spent_app (team : list TeamPlayer) (p : TeamPlayer) :
  spent (team ++ [p]) == spent team + Final_Price p.
Proof.
  unfold spent. induction team as [|q team IH]; cbn [app fold_right].
  - ring.
  - rewrite IH. ring.
Qed.

Lemma NoDup_snoc (l : list string) (x : string) :
  NoDup l -> ~ In x l -> NoDup (l ++ [x]).
Proof.
  intros Hl Hx. apply NoDup_app; [exact Hl | repeat constructor; tauto |].
  intros a Ha [<-|[]]. contradiction.
Qed.

Lemma remove_first_spec (name : string) (team : list TeamPlayer) (r : Q)
  (rest : list TeamPlayer) :
  remove_first name team = Some (r, rest) ->
  (exists p, In p team /\ r = refund p
             /\ spent team == Final_Price p + spent rest)
  /\ (forall x, In x rest -> In x team)
  /\ (forall P : TeamPlayer -> Prop, Forall P team -> Forall P rest)
  /\ (NoDup (map Player team) -> NoDup (map Player rest)).
Proof.
  revert r rest. induction team as [|q team IH]; intros r rest H; [discriminate|].
  cbn in H. destruct (Player q =? name).
  - injection H as <- <-. split; [|split; [|split]].
    + exists q. split; [now left|]. split; reflexivity.
    + intros x Hx. now right.
    + intros P HP. now inversion HP.
    + intros Hnd. now inversion Hnd.
  - destruct (remove_first name team) as [[r' rest']|] eqn:E; [|discriminate].
    injection H as <- <-.
    destruct (IH r' rest' eq_refl) as ((p & Hp & Hr & Hs) & Hin & Hall & Hnd).
    split; [|split; [|split]].
    + exists p. split; [now right|]. split; [exact Hr|].
      change (spent (q :: team)) with (Final_Price q + spent team).
      change (spent (q :: rest')) with (Final_Price q + spent rest').
      rewrite Hs. ring.
    + intros x [<-|Hx]; [now left | right; now apply Hin].
    + intros P HP. inversion HP; subst. constructor; [assumption | now apply Hall].
    + intros Hn. cbn in Hn |- *. inversion Hn as [|? ? Hq Hn']; subst.
      constructor; [|now apply Hnd].
      intros Hc. apply Hq. apply in_map_iff in Hc.
      destruct Hc as (x & Hx & Hxin). apply in_map_iff. exists x.
      split; [exact Hx | now apply Hin].
Qed.

Lemma append_entry_invariant (s : State) (p : TeamPlayer)
  (sold : list string) (history : list (string * (Q * Q))) :
  team_invariant s ->
  player_bought s (Player p) = false ->
  Qle_bool (Final_Price p) (remaining_budget s) = true ->
  0 <= Final_Price p -> refund p == Final_Price p ->
  team_invariant
    (mkState (team_players s ++ [p]) (remaining_budget s - Final_Price p)
             sold history).
Proof.
  intros (Hsum & Hpos & Hnd & Hall) Hb Hle Hp Hr.
  apply Qle_bool_iff in Hle. apply name_in_false in Hb.
  unfold team_invariant. cbn [team_players remaining_budget].
  split; [|split; [|split]].
  - rewrite spent_app. rewrite <- Hsum. ring.
  - lra.
  - rewrite map_app. cbn. now apply NoDup_snoc.
  - apply Forall_app. split; [exact Hall|]. repeat constructor; assumption.
Qed.

(** Every click keeps the invariant. *)
Lemma click_invariant (s : State) (a : Action) :
  team_invariant s -> well_priced a -> team_invariant (click s a).
Proof.
  intros Hinv Hw. destruct a as [player|player bid_amount final_price|name|];
    cbn [click well_priced] in *.
  - unfold add_to_team.
    destruct (negb (player_sold s (g_Player player))
              && negb (player_bought s (g_Player player))) eqn:G; [|exact Hinv].
    apply Bool.andb_true_iff in G. destruct G as [_ Gb].
    apply Bool.negb_true_iff in Gb.
    destruct (Qle_bool (notna_or (g_Price player) 0) (remaining_budget s)) eqn:L;
      [|exact Hinv].
    apply (append_entry_invariant s
             (mkTeamPlayer (g_Player player) _ (notna_or (g_Price player) 0)
                           _ _ _ None (notna_or (g_Price player) 0)));
      try assumption.
    unfold refund. cbn. destruct (Qeq_bool _ 0); reflexivity.
  - unfold confirm_bid.
    destruct (negb (player_sold s (g_Player player))
              && negb (player_bought s (g_Player player))) eqn:G; [|exact Hinv].
    apply Bool.andb_true_iff in G. destruct G as [_ Gb].
    apply Bool.negb_true_iff in Gb.
    destruct (Qle_bool final_price (remaining_budget s)) eqn:L; [|exact Hinv].
    apply (append_entry_invariant s
             (mkTeamPlayer (g_Player player) _ _ _ _ _ (Some bid_amount)
                           final_price));
      try assumption.
    + now apply Qlt_le_weak.
    + unfold refund. cbn.
      assert (E : Qeq_bool final_price 0 = false)
        by (apply Qeq_bool_false_neq; lra).
      rewrite E. reflexivity.
  - unfold remove_from_team.
    destruct (negb (negb (player_sold s name) && negb (player_bought s name))
              && player_bought s name); [|exact Hinv].
    destruct (remove_first name (team_players s)) as [[r rest]|] eqn:E;
      [|exact Hinv].
    destruct Hinv as (Hsum & Hpos & Hnd & Hall).
    destruct (remove_first_spec _ _ _ _ E)
      as ((p & Hp & -> & Hs) & _ & Hkeep & Hnd').
    rewrite Forall_forall in Hall. destruct (Hall p Hp) as [Hfp Hrf].
    unfold team_invariant. cbn [team_players remaining_budget].
    split; [|split; [|split]].
    + rewrite Hrf. rewrite <- Hsum, Hs. ring.
    + rewrite Hrf. lra.
    + now apply Hnd'.
    + apply Hkeep. now apply Forall_forall.
  - unfold reset_team, team_invariant. cbn [team_players remaining_budget].
    split; [reflexivity|]. split; [discriminate|].
    split; constructor.
Qed.

Lemma fold_click_invariant (actions : list Action) (s : State) :
  team_invariant s -> Forall well_priced actions ->
  team_invariant (fold_left click actions s).
Proof.
  revert s. induction actions as [|a actions IH]; intros s Hinv Hw; [exact Hinv|].
  inversion Hw; subst. cbn [fold_left]. apply IH; [|assumption].
  now apply click_invariant.
Qed.

Lemma spent_nonneg (team : list TeamPlayer) :
  Forall (fun p => 0 <= Final_Price p /\ refund p == Final_Price p) team ->
  0 <= spent team.
Proof.
  induction 1 as [|p team [Hp _] _ IH]; [apply Qle_refl|].
  change (spent (p :: team)) with (Final_Price p + spent team). lra.
Qed.

(** X24: in a session made of "Add to Team", "Confirm Bid", "Remove" and
    "Reset Team" clicks with non-negative listed prices and positive final
    prices, the remaining budget plus the final prices of the team is always
    the total budget of 150, the remaining budget stays between 0 and 150,
    and no player is in the team twice. *)
Theorem session_keeps_budget (actions : list Action) :
  Forall well_priced actions ->
  let s := session actions in
  remaining_budget s + spent (team_players s) == TOTAL_BUDGET
  /\ 0 <= remaining_budget s <= TOTAL_BUDGET
  /\ NoDup (map Player (team_players s)).
Proof.
  intros Hw s.
  assert (Hinit : team_invariant init_session_state).
  { unfold team_invariant, init_session_state.
    cbn [team_players remaining_budget].
    split; [reflexivity|]. split; [discriminate|].
    split; constructor. }
  destruct (fold_click_invariant actions _ Hinit Hw) as (Hsum & Hpos & Hnd & Hall).
  fold (session actions) in Hsum, Hpos, Hnd, Hall. fold s in Hsum, Hpos, Hnd, Hall.
  pose proof (spent_nonneg _ Hall) as Hs.
  repeat split; try assumption. lra.
Qed.

Lemma session_keeps_budget_witness :
  remaining_budget (session sample_clicks)
  + spent (team_players (session sample_clicks)) == TOTAL_BUDGET
  /\ 0 <= remaining_budget (session sample_clicks) <= TOTAL_BUDGET
  /\ NoDup (map Player (team_players (session sample_clicks))).
Proof.
  apply (session_keeps_budget sample_clicks).
  repeat constructor; cbn; discriminate.
Defined.

Lemma remove_first_last (name : string) (team : list TeamPlayer)
  (p : TeamPlayer) :
  ~ In name (map Player team) -> Player p = name ->
  remove_first name (team ++ [p]) = Some (refund p, team).
Proof.
  intros Hnot Hp. induction team as [|q team IH]; cbn.
  - apply String.eqb_eq in Hp. now rewrite Hp.
  - assert (E : (Player q =? name) = false).
    { apply String.eqb_neq. intros H. apply Hnot. now left. }
    rewrite E, IH; [reflexivity|]. intros H. apply Hnot. now right.
Qed.

(** X25: a player who is neither sold nor in the team, whose bid is
    confirmed at a final price of 0 and who is then removed, leaves the team
    as it was but the remaining budget larger by the player's listed price:
    the refund falls back on the listed price when the final price is 0. *)
Theorem free_player_refunded_at_listed_price (s : State)
  (player : GuidePlayer) (bid_amount price : Q) :
  player_sold s (g_Player player) = false ->
  player_bought s (g_Player player) = false ->
  g_Price player = Some price ->
  0 <= remaining_budget s ->
  let s' := remove_from_team (confirm_bid s player bid_amount 0)
                             (g_Player player) in
  team_players s' = team_players s
  /\ remaining_budget s' == remaining_budget s + price.
Proof.
  intros Hs Hb Hp Hpos. cbv zeta.
  unfold confirm_bid. rewrite Hs, Hb. cbn [negb andb].
  assert (L : Qle_bool 0 (remaining_budget s) = true) by now apply Qle_bool_iff.
  rewrite L. unfold remove_from_team, player_sold, player_bought.
  cbn [sold_players team_players remaining_budget bid_history].
  unfold player_sold in Hs. rewrite Hs.
  assert (Hin : name_in (g_Player player)
                  (map Player
                     (team_players s
                      ++ [mkTeamPlayer (g_Player player)
                            (notna_or (g_Tier player) 4%Z)
                            (notna_or (g_Price player) 0)
                            (notna_or (g_Gender player) "Not specified")
                            (notna_or (g_Primary_Position player) "Not specified")
                            (notna_or (g_Value_Score player) 1.0)
                            (Some bid_amount) 0])) = true).
  { apply name_in_In. rewrite map_app. apply in_or_app. right. now left. }
  rewrite Hin. cbn [negb andb].
  rewrite remove_first_last;
    [| now apply name_in_false | reflexivity].
  cbn [team_players remaining_budget]. split; [reflexivity|].
  unfold refund. cbn. rewrite Hp. cbn. ring.
Qed.

Lemma free_player_refunded_at_listed_price_witness :
  team_players
    (remove_from_team (confirm_bid init_session_state guide_player_2 5 0)
                      "Player I") = []
  /\ remaining_budget
       (remove_from_team (confirm_bid init_session_state guide_player_2 5 0)
                         "Player I") == 162.
Proof.
  destruct (free_player_refunded_at_listed_price init_session_state
              guide_player_2 5 12 eq_refl eq_refl eq_refl)
    as [Ht Hb]; [discriminate|].
  split; [exact Ht | rewrite Hb; reflexivity].
Defined.

End TeamSession.
